(** * transactional: sqlx transactional wrappers for functions and http handlers

    A shallow embedding of [typed.go] / [transactional.go] of the Go package
    [transactional].  The package talks to three collaborators it does not
    implement: [database/sql] (through [sqlx]) for begin / commit /
    rollback, [httperr] for status-carrying errors and the error-rendering
    http adapter, and the application code run inside the transaction.

    The calls to those collaborators are the only effects of the package, so
    a Go function is embedded as a program tree whose nodes are the
    collaborator calls ([Prog]).  A tree is run against an arbitrary driver,
    which answers each call and threads its own state; running also yields
    the ordered trace of calls that were issued. *)

From Stdlib Require Import String List ZArith Lia Bool.
Import ListNotations.
Open Scope string_scope.

(** ** Go error values *)

(** The error values that flow through the package.
    - [ErrTxDone], [ErrNoRows]: the sentinels [sql.ErrTxDone], [sql.ErrNoRows];
    - [ErrOther msg]: any other leaf error (a driver or application error),
      identified by its message;
    - [ErrWrapf msg inner]: the value built by [fmt.Errorf] with one [%w]
      verb: it prints as [msg] and unwraps to [inner];
    - [ErrHTTP inner status]: [httperr.Error{Err: inner, Status: status}],
      what [httperr.Wrap] builds. *)
Inductive error : Type :=
| ErrTxDone
| ErrNoRows
| ErrOther (msg : string)
| ErrWrapf (msg : string) (inner : error)
| ErrHTTP (inner : error) (status : nat).

Definition StatusNotFound : nat := 404.

(** [err.Error()] *)
Fixpoint Error (e : error) : string :=
  match e with
  | ErrTxDone => "sql: transaction has already been committed or rolled back"
  | ErrNoRows => "sql: no rows in result set"
  | ErrOther msg => msg
  | ErrWrapf msg _ => msg
  | ErrHTTP inner _ => Error inner
  end.

(** [Unwrap()], for the values that have it. *)
Definition Unwrap (e : error) : option error :=
  match e with
  | ErrWrapf _ inner => Some inner
  | ErrHTTP inner _ => Some inner
  | _ => None
  end.

(** Go's [==] on two error values. *)
Fixpoint error_eqb (a b : error) : bool :=
  match a, b with
  | ErrTxDone, ErrTxDone => true
  | ErrNoRows, ErrNoRows => true
  | ErrOther m, ErrOther m' => String.eqb m m'
  | ErrWrapf m i, ErrWrapf m' i' => String.eqb m m' && error_eqb i i'
  | ErrHTTP i s, ErrHTTP i' s' => error_eqb i i' && Nat.eqb s s'
  | _, _ => false
  end.

(** [errors.Is(err, target)]: walk the [Unwrap] chain of [err], comparing
    each link with [target]. *)
Fixpoint errors_Is (err target : error) : bool :=
  error_eqb err target ||
  match err with
  | ErrWrapf _ inner => errors_Is inner target
  | ErrHTTP inner _ => errors_Is inner target
  | _ => false
  end.

(** [httperr.Wrap(err, status)] *)
Definition httperr_Wrap (err : error) (status : nat) : error :=
  ErrHTTP err status.

(** [errors.As(err, &herr)] for [herr] of type [httperr.Error]: the first
    [httperr.Error] on the [Unwrap] chain of [err], if there is one. *)
Fixpoint errors_As_httperr (err : error) : option error :=
  match err with
  | ErrHTTP inner status => Some (ErrHTTP inner status)
  | ErrWrapf _ inner => errors_As_httperr inner
  | _ => None
  end.

(** The error an [httperr] adapter hands to its error handler: the
    [httperr.Error] found by [errors.As], the error itself when its chain
    holds none. *)
Definition handed_error (err : error) : error :=
  match errors_As_httperr err with
  | Some herr => herr
  | None => err
  end.

(** [fmt.Errorf(prefix + "%w", err)] *)
Definition Errorf_w (prefix : string) (err : error) : error :=
  ErrWrapf (prefix ++ Error err) err.

(** [fmt.Errorf("failed to rollback: %s: %w", err.Error(), rerr)]: the first
    operand is formatted with [%s], only the second one with [%w]. *)
Definition Errorf_rollback (err rerr : error) : error :=
  ErrWrapf ("failed to rollback: " ++ Error err ++ ": " ++ Error rerr) rerr.

(** ** Handles, contexts, requests *)

(** [*sqlx.DB] and [*sqlx.Tx] are pointers: a handle is its identity. *)
Definition DB := nat.
Definition Tx := nat.
Definition ResponseWriter := nat.

(** [context.Context], as a chain of derived contexts.  [txKey] is an
    unexported type of the package, so the only values ever stored under
    [txKey{}] are the [*sqlx.Tx] the package stores there ([WithTx]); every
    other binding is some other key's ([WithOther]). *)
Inductive Context : Type :=
| Background
| WithTx (parent : Context) (tx : Tx)
| WithOther (parent : Context) (key val : string).

(** [ctx.Value(txKey{})]: the innermost binding of [txKey{}], [None] for nil. *)
Fixpoint Value_txKey (ctx : Context) : option Tx :=
  match ctx with
  | Background => None
  | WithTx _ tx => Some tx
  | WithOther parent _ _ => Value_txKey parent
  end.

(** [context.WithValue(ctx, txKey{}, tx)] *)
Definition WithValue_txKey (ctx : Context) (tx : Tx) : Context := WithTx ctx tx.

(** [*http.Request]: the part the package reads, its context, and the rest. *)
Record Request : Type := mkRequest { req_ctx : Context; req_url : string }.

(** [r.WithContext(ctx)] *)
Definition WithContext (r : Request) (ctx : Context) : Request :=
  {| req_ctx := ctx; req_url := req_url r |}.

(** ** Programs over the collaborator calls *)

(** One constructor per call to a collaborator, indexed by what it returns.
    [BeginTxx] returns the pair [(tx, err)] of Go as a sum; [Commit] and
    [Rollback] return a Go [error], [None] for nil.  [Exec] stands for the
    application's own statements on the handle and [Render] for what the
    error renderer does with the response. *)
Inductive Event : Type -> Type :=
| BeginTxx (db : DB) (ctx : Context) : Event (Tx + error)
| Commit (tx : Tx) : Event (option error)
| Rollback (tx : Tx) : Event (option error)
| Exec (tx : Tx) (query : string) : Event (option error)
| Render (w : ResponseWriter) (err : error) : Event unit.

Inductive Prog (A : Type) : Type :=
| Ret (a : A)
| Vis (X : Type) (e : Event X) (k : X -> Prog A).

Arguments Ret {A} a.
Arguments Vis {A X} e k.

Fixpoint bind {A B : Type} (m : Prog A) (f : A -> Prog B) : Prog B :=
  match m with
  | Ret a => f a
  | Vis e k => Vis e (fun x => bind (k x) f)
  end.

Definition call {X : Type} (e : Event X) : Prog X := Vis e Ret.

Declare Scope prog_scope.
Delimit Scope prog_scope with prog.
Notation "x <- m ;; k" := (bind m (fun x => k))
  (at level 61, m at next level, right associativity) : prog_scope.
Notation "' p <- m ;; k" := (bind m (fun p => k))
  (at level 61, p pattern, m at next level, right associativity) : prog_scope.
Open Scope prog_scope.

(** A call together with its answer, as recorded in a trace. *)
Inductive Call : Type :=
| CBegin (db : DB) (ctx : Context) (res : Tx + error)
| CCommit (tx : Tx) (res : option error)
| CRollback (tx : Tx) (res : option error)
| CExec (tx : Tx) (query : string) (res : option error)
| CRender (w : ResponseWriter) (err : error).

Definition record_call {X : Type} (e : Event X) : X -> Call :=
  match e in Event X return X -> Call with
  | BeginTxx db ctx => CBegin db ctx
  | Commit tx => CCommit tx
  | Rollback tx => CRollback tx
  | Exec tx q => CExec tx q
  | Render w err => fun _ => CRender w err
  end.

(** A driver answers every call from its own state. *)
Definition Driver (W : Type) : Type := forall X : Type, Event X -> W -> X * W.

(** The outcome of running a program: its value, the driver's final state
    and the calls issued, oldest first. *)
Record Outcome (W A : Type) : Type :=
  mkOutcome { value : A; final : W; trace : list Call }.

Arguments mkOutcome {W A} value final trace.
Arguments value {W A} o.
Arguments final {W A} o.
Arguments trace {W A} o.

Fixpoint run {W A : Type} (d : Driver W) (p : Prog A) (s : W) : Outcome W A :=
  match p with
  | Ret a => mkOutcome a s []
  | Vis e k =>
      let (x, s1) := d _ e s in
      let o := run d (k x) s1 in
      mkOutcome (value o) (final o) (record_call e x :: trace o)
  end.

(** ** The package *)

(** The zero value of a Go type: what [var r T] holds. *)
Class Zero (T : Type) : Type := zero : T.

#[export] Instance Zero_Z : Zero Z := 0%Z.
#[export] Instance Zero_nat : Zero nat := 0.
#[export] Instance Zero_string : Zero string := "".
#[export] Instance Zero_bool : Zero bool := false.
#[export] Instance Zero_unit : Zero unit := tt.

(** [func rollback(tx *sqlx.Tx, err error) error].  Every call site has
    already tested [err != nil], so [err] is a non-nil error here and so is
    the value returned. *)
Definition rollback (tx : Tx) (err : error) : Prog error :=
  rerr <- call (Rollback tx) ;;
  match rerr with
  | Some rerr =>
      if errors_Is rerr ErrTxDone then Ret err
      else Ret (Errorf_rollback err rerr)
  | None =>
      if errors_Is err ErrNoRows then Ret (httperr_Wrap err StatusNotFound)
      else Ret err
  end.

Module Typed.

(** [type Typed[T any] struct { dbx *sqlx.DB }] *)
Record Typed (T : Type) : Type := WithDBAndType { dbx : DB }.

Arguments WithDBAndType {T} dbx.
Arguments dbx {T} t.

(** [func (t *Typed[T]) WrapFn(ctx, fn) (T, error)] *)
Definition WrapFn {T : Type} `{Zero T} (t : Typed T) (ctx : Context)
    (fn : Tx -> Prog (T * option error)) : Prog (T * option error) :=
  let r : T := zero in
  b <- call (BeginTxx (dbx t) ctx) ;;
  match b with
  | inr err => Ret (r, Some (Errorf_w "failed to begin transaction: " err))
  | inl tx =>
      '(r, err) <- fn tx ;;
      match err with
      | Some err => e <- rollback tx err ;; Ret (r, Some e)
      | None =>
          cerr <- call (Commit tx) ;;
          match cerr with
          | Some cerr =>
              if errors_Is cerr ErrTxDone then Ret (r, None)
              else Ret (r, Some (Errorf_w "failed to commit transaction: " cerr))
          | None => Ret (r, None)
          end
      end
  end.

End Typed.

(** [type Handler interface { ServeHTTP(tx, w, r) error }]; a [HandlerFunc]
    is the same function, [Handler(h)] the identity. *)
Definition Handler : Type := Tx -> ResponseWriter -> Request -> Prog (option error).
Definition HandlerFunc : Type := Tx -> ResponseWriter -> Request -> Prog (option error).
Definition HandlerFunc_ServeHTTP (f : HandlerFunc) : Handler := fun tx w r => f tx w r.

(** [http.Handler] and [httperr.ErrorHandler] *)
Definition http_Handler : Type := ResponseWriter -> Request -> Prog unit.
Definition ErrorHandler : Type := ResponseWriter -> error -> Prog unit.

(** Modelled from the spec: [httperr.NewFWithHandler(f, eh)] belongs to the
    [httperr] library, which is not part of the source of this package; the
    spec has it as the collaborator that renders an error as the response.
    The adapter serves the request with [f] and, when [f] returns a non-nil
    error, runs the error handler [eh]; as the library does, it hands [eh]
    the [httperr.Error] that [errors.As] finds on the chain of that error,
    and the error itself when the chain holds none ([handed_error]). *)
Definition NewFWithHandler
    (f : ResponseWriter -> Request -> Prog (option error))
    (eh : ErrorHandler) : http_Handler :=
  fun w r =>
    err <- f w r ;;
    match err with
    | Some err => eh w (handed_error err)
    | None => Ret tt
    end.

Module Transactional.

(** [type Transactional struct { dbx *sqlx.DB }] *)
Record Transactional : Type := WithDB { dbx : DB }.

(** [func (t *Transactional) WrapFn(ctx, fn) error] *)
Definition WrapFn (t : Transactional) (ctx : Context)
    (fn : Tx -> Prog (option error)) : Prog (option error) :=
  b <- call (BeginTxx (dbx t) ctx) ;;
  match b with
  | inr err => Ret (Some (Errorf_w "failed to begin transaction: " err))
  | inl tx =>
      err <- fn tx ;;
      match err with
      | Some err => e <- rollback tx err ;; Ret (Some e)
      | None =>
          cerr <- call (Commit tx) ;;
          match cerr with
          | Some cerr =>
              if errors_Is cerr ErrTxDone then Ret None
              else Ret (Some (Errorf_w "failed to commit transaction: " cerr))
          | None => Ret None
          end
      end
  end.

(** The function literal that [Wrap] hands to [httperr.NewFWithHandler]. *)
Definition Wrap_func (t : Transactional) (h : Handler)
    : ResponseWriter -> Request -> Prog (option error) :=
  fun w r =>
    let ctx := req_ctx r in
    match Value_txKey ctx with
    | Some tx =>
        err <- h tx w r ;;
        match err with
        | Some err => e <- rollback tx err ;; Ret (Some e)
        | None => Ret None
        end
    | None =>
        WrapFn t ctx (fun tx =>
          let ctx := WithValue_txKey ctx tx in
          h tx w (WithContext r ctx))
    end.

(** [func (t *Transactional) Wrap(h Handler, eh httperr.ErrorHandler) http.Handler] *)
Definition Wrap (t : Transactional) (h : Handler) (eh : ErrorHandler)
    : http_Handler :=
  NewFWithHandler (Wrap_func t h) eh.

(** [func (t *Transactional) WrapF(h HandlerFunc, eh) http.Handler] *)
Definition WrapF (t : Transactional) (h : HandlerFunc) (eh : ErrorHandler)
    : http_Handler :=
  Wrap t (HandlerFunc_ServeHTTP h) eh.

End Transactional.

(** ** A reference driver

    [database/sql] as its documentation describes a [Tx]: begin hands out a
    fresh handle; the first commit or rollback of a handle finishes it and
    reports what the database answered; every later commit or rollback of
    that handle reports [sql.ErrTxDone].  What the database answers is fixed
    by a [Faults] record, so that each failure can be provoked. *)

Record Faults : Type := mkFaults {
  begin_fault : option error;
  commit_fault : option error;
  rollback_fault : option error;
  exec_fault : string -> option error
}.

Definition no_faults : Faults :=
  {| begin_fault := None; commit_fault := None; rollback_fault := None;
     exec_fault := fun _ => None |}.

Record SqlState : Type := mkSqlState { next_tx : Tx; finished : list Tx }.

Definition sql_init : SqlState := {| next_tx := 1; finished := [] |}.

Definition is_finished (tx : Tx) (s : SqlState) : bool :=
  existsb (Nat.eqb tx) (finished s).

Definition finish (tx : Tx) (s : SqlState) : SqlState :=
  {| next_tx := next_tx s; finished := tx :: finished s |}.

Definition sql_driver (f : Faults) : Driver SqlState :=
  fun X e =>
    match e in Event X return SqlState -> X * SqlState with
    | BeginTxx _ _ => fun s =>
        match begin_fault f with
        | Some err => (inr err, s)
        | None => (inl (next_tx s),
                   {| next_tx := S (next_tx s); finished := finished s |})
        end
    | Commit tx => fun s =>
        if is_finished tx s then (Some ErrTxDone, s)
        else (commit_fault f, finish tx s)
    | Rollback tx => fun s =>
        if is_finished tx s then (Some ErrTxDone, s)
        else (rollback_fault f, finish tx s)
    | Exec tx q => fun s =>
        if is_finished tx s then (Some ErrTxDone, s) else (exec_fault f q, s)
    | Render _ _ => fun s => (tt, s)
    end.

(** ** Reading traces *)

Definition is_begin (c : Call) : bool :=
  match c with CBegin _ _ _ => true | _ => false end.

Definition is_rollback_of (tx : Tx) (c : Call) : bool :=
  match c with CRollback tx' _ => Nat.eqb tx tx' | _ => false end.

(** How many begin calls a trace holds, and how many rollbacks of [tx]. *)
Definition begins (tr : list Call) : nat := length (filter is_begin tr).
Definition rollbacks_of (tx : Tx) (tr : list Call) : nat :=
  length (filter (is_rollback_of tx) tr).

(** A program that never issues a begin call, whatever it is answered. *)
Inductive NoBegin {A : Type} : Prog A -> Prop :=
| NoBegin_Ret : forall a, NoBegin (Ret a)
| NoBegin_Commit : forall tx k,
    (forall x, NoBegin (k x)) -> NoBegin (Vis (Commit tx) k)
| NoBegin_Rollback : forall tx k,
    (forall x, NoBegin (k x)) -> NoBegin (Vis (Rollback tx) k)
| NoBegin_Exec : forall tx q k,
    (forall x, NoBegin (k x)) -> NoBegin (Vis (Exec tx q) k)
| NoBegin_Render : forall w err k,
    (forall x, NoBegin (k x)) -> NoBegin (Vis (Render w err) k).

(** ** Nested chains of [Wrap]

    A handler either is application logic ([Leaf]) or serves the very
    request it was given through another [Wrap] and then goes on with [post]
    ([Nest]); nesting can go on to any depth. *)
Inductive Chain : Type :=
| Leaf (app : Handler)
| Nest (inner : Chain) (eh : ErrorHandler) (post : Tx -> Prog (option error)).

Fixpoint chain_handler (t : Transactional.Transactional) (c : Chain) : Handler :=
  match c with
  | Leaf app => app
  | Nest inner eh post => fun tx w r =>
      _ <- Transactional.Wrap t (chain_handler t inner) eh w r ;; post tx
  end.

(** What a chain does when every level works on the one handle [tx]: no
    context is read and nothing is begun. *)
Fixpoint chain_on (tx : Tx) (c : Chain) (w : ResponseWriter) (r : Request)
    : Prog (option error) :=
  match c with
  | Leaf app => app tx w r
  | Nest inner eh post =>
      _ <- (err <- (err <- chain_on tx inner w r ;;
                    match err with
                    | Some err => e <- rollback tx err ;; Ret (Some e)
                    | None => Ret None
                    end) ;;
            match err with
            | Some err => eh w (handed_error err)
            | None => Ret tt
            end) ;;
      post tx
  end.

(** Neither the application logic, nor the error handlers, nor the
    continuations of a chain begin a transaction of their own. *)
Fixpoint ChainNoBegin (c : Chain) : Prop :=
  match c with
  | Leaf app => forall tx w r, NoBegin (app tx w r)
  | Nest inner eh post =>
      ChainNoBegin inner /\ (forall w e, NoBegin (eh w e)) /\
      (forall tx, NoBegin (post tx))
  end.

(** The nested scenario: the outer handler serves its request through an
    inner [Wrap] of [h] and then returns [propagated]. *)
Definition nested_outer (t : Transactional.Transactional) (h : Handler)
    (eh : ErrorHandler) (propagated : option error) : Handler :=
  chain_handler t (Nest (Leaf h) eh (fun _ => Ret propagated)).

(** The error renderer that writes the error to the response. *)
Definition render : ErrorHandler := fun w err => call (Render w err).

(** ** Sample database, units of work and requests *)

Definition db0 : DB := 0.
Definition typed0 : Typed.Typed Z := Typed.WithDBAndType db0.
Definition trans0 : Transactional.Transactional := Transactional.WithDB db0.

(** The database has no matching row for any statement. *)
Definition missing_row : Faults :=
  {| begin_fault := None; commit_fault := None; rollback_fault := None;
     exec_fault := fun _ => Some ErrNoRows |}.

(** No matching row, and the connection is lost when rolling back. *)
Definition broken_rollback : Faults :=
  {| begin_fault := None; commit_fault := None;
     rollback_fault := Some (ErrOther "connection reset");
     exec_fault := fun _ => Some ErrNoRows |}.

(** The state once handle 1 has been begun, and once it has been finished. *)
Definition sql_begun : SqlState := {| next_tx := 2; finished := [] |}.
Definition sql_done : SqlState := {| next_tx := 2; finished := [1] |}.

(** Look a user up; a failed lookup still returns the partial result 7. *)
Definition find_user (tx : Tx) : Prog (option error) :=
  call (Exec tx "SELECT * FROM users WHERE id = 1").

Definition find_user_typed (tx : Tx) : Prog (Z * option error) :=
  err <- find_user tx ;;
  match err with
  | Some err => Ret (7%Z, Some err)
  | None => Ret (42%Z, None)
  end.

Definition find_user_h : Handler := fun tx _ _ => find_user tx.

(** Units of work that finish the transaction themselves. *)
Definition self_commit (tx : Tx) : Prog (option error) :=
  _ <- call (Commit tx) ;; Ret None.

Definition self_commit_typed (tx : Tx) : Prog (Z * option error) :=
  _ <- call (Commit tx) ;; Ret (42%Z, None).

Definition req0 : Request := mkRequest Background "/users/1".
Definition req_carrying (tx : Tx) : Request :=
  mkRequest (WithOther (WithTx Background tx) "request-id" "abc") "/users/1".

(** Three levels of [Wrap] around the lookup. *)
Definition chain3 : Chain :=
  Nest (Nest (Leaf find_user_h) render (fun _ => Ret None)) render
       (fun tx => call (Exec tx "UPDATE audit")).

(** ** How an executor resolves once the unit of work has returned *)

Section Resolve.

Variables (W : Type) (d : Driver W).

(** What [Typed.WrapFn] returns once the unit of work has returned. *)
Definition typed_resolve {T : Type} (tx : Tx) (o : Outcome W (T * option error))
    : T * option error :=
  match snd (value o) with
  | Some err => (fst (value o), Some (value (run d (rollback tx err) (final o))))
  | None =>
      match fst (d _ (Commit tx) (final o)) with
      | Some cerr =>
          if errors_Is cerr ErrTxDone then (fst (value o), None)
          else (fst (value o),
                Some (Errorf_w "failed to commit transaction: " cerr))
      | None => (fst (value o), None)
      end
  end.

(** The call [WrapFn] itself issues after the unit of work: one rollback
    or one commit. *)
Definition closing_call {A : Type} (tx : Tx) (err : option error)
    (o : Outcome W A) : Call :=
  match err with
  | Some _ => CRollback tx (fst (d _ (Rollback tx) (final o)))
  | None => CCommit tx (fst (d _ (Commit tx) (final o)))
  end.

(** What [Transactional.WrapFn] returns once the unit of work has returned. *)
Definition resolve (tx : Tx) (o : Outcome W (option error)) : option error :=
  match value o with
  | Some err => Some (value (run d (rollback tx err) (final o)))
  | None =>
      match fst (d _ (Commit tx) (final o)) with
      | Some cerr =>
          if errors_Is cerr ErrTxDone then None
          else Some (Errorf_w "failed to commit transaction: " cerr)
      | None => None
      end
  end.

Definition resolved_state (tx : Tx) (o : Outcome W (option error)) : W :=
  match value o with
  | Some _ => snd (d _ (Rollback tx) (final o))
  | None => snd (d _ (Commit tx) (final o))
  end.

End Resolve.

Arguments typed_resolve {W} d {T} tx o.
Arguments closing_call {W} d {A} tx err o.
Arguments resolve {W} d tx o.
Arguments resolved_state {W} d tx o.

(** ** Further readings of traces and units of work *)

Definition is_commit_of (tx : Tx) (c : Call) : bool :=
  match c with CCommit tx' _ => Nat.eqb tx tx' | _ => false end.

(** How many commits of [tx] a trace holds. *)
Definition commits_of (tx : Tx) (tr : list Call) : nat :=
  length (filter (is_commit_of tx) tr).

(** A unit of work of [Transactional.WrapFn] seen as one of [Typed.WrapFn]
    at the result type [struct{}]. *)
Definition discard_result (fn : Tx -> Prog (option error))
    : Tx -> Prog (unit * option error) :=
  fun tx => err <- fn tx ;; Ret (tt, err).

(** What the package relies on from [database/sql]: a handle that is
    finished answers commit and rollback with [sql.ErrTxDone], a commit or a
    rollback leaves the handle finished, and a finished handle stays so. *)
Record TxContract {W : Type} (d : Driver W) (done : Tx -> W -> bool) : Prop :=
  mkTxContract {
    commit_done : forall tx s, done tx s = true ->
      exists cerr, fst (d _ (Commit tx) s) = Some cerr /\
                   errors_Is cerr ErrTxDone = true;
    rollback_done : forall tx s, done tx s = true ->
      exists rerr, fst (d _ (Rollback tx) s) = Some rerr /\
                   errors_Is rerr ErrTxDone = true;
    commit_finishes : forall tx s, done tx (snd (d _ (Commit tx) s)) = true;
    rollback_finishes : forall tx s, done tx (snd (d _ (Rollback tx) s)) = true;
    stays_done : forall (X : Type) (e : Event X) tx s,
      done tx s = true -> done tx (snd (d X e s)) = true
  }.

Arguments commit_done {W d done} _ tx s _.
Arguments rollback_done {W d done} _ tx s _.
Arguments commit_finishes {W d done} _ tx s.
Arguments rollback_finishes {W d done} _ tx s.
Arguments stays_done {W d done} _ {X} e tx s _.

(** A handler that commits the handle itself. *)
Definition self_commit_h : Handler := fun tx _ _ => self_commit tx.

(** The commit is refused by the database. *)
Definition broken_commit : Faults :=
  {| begin_fault := None;
     commit_fault := Some (ErrOther "serialization failure");
     rollback_fault := None; exec_fault := fun _ => None |}.

(** The database cannot be reached. *)
Definition broken_begin : Faults :=
  {| begin_fault := Some (ErrOther "connection refused");
     commit_fault := None; rollback_fault := None;
     exec_fault := fun _ => None |}.

(** * Properties *)

Open Scope list_scope.


(** ** Running programs *)

Lemma run_bind : forall (W A B : Type) (d : Driver W) (m : Prog A)
    (f : A -> Prog B) (s : W),
  run d (bind m f) s =
  let o1 := run d m s in
  let o2 := run d (f (value o1)) (final o1) in
  mkOutcome (value o2) (final o2) (trace o1 ++ trace o2).
Proof.
  intros W A B d m f. induction m as [a | X e k IH]; intros s; simpl.
  - destruct (run d (f a) s); reflexivity.
  - destruct (d X e s) as [x s1]. rewrite IH. reflexivity.
Qed.

Lemma run_call : forall (W X : Type) (d : Driver W) (e : Event X) (s : W),
  run d (call e) s =
  mkOutcome (fst (d X e s)) (snd (d X e s)) [record_call e (fst (d X e s))].
Proof.
  intros. unfold call. simpl. destruct (d X e s); reflexivity.
Qed.

Lemma value_bind : forall (W A B : Type) (d : Driver W) (m : Prog A)
    (f : A -> Prog B) (s : W),
  value (run d (bind m f) s) =
  value (run d (f (value (run d m s))) (final (run d m s))).
Proof. intros. rewrite run_bind. reflexivity. Qed.

Lemma trace_bind : forall (W A B : Type) (d : Driver W) (m : Prog A)
    (f : A -> Prog B) (s : W),
  trace (run d (bind m f) s) =
  trace (run d m s) ++ trace (run d (f (value (run d m s))) (final (run d m s))).
Proof. intros. rewrite run_bind. reflexivity. Qed.

Lemma final_bind : forall (W A B : Type) (d : Driver W) (m : Prog A)
    (f : A -> Prog B) (s : W),
  final (run d (bind m f) s) =
  final (run d (f (value (run d m s))) (final (run d m s))).
Proof. intros. rewrite run_bind. reflexivity. Qed.

(** ** Error values *)

Lemma error_eqb_refl : forall e, error_eqb e e = true.
Proof.
  induction e; simpl; auto.
  - apply String.eqb_refl.
  - rewrite String.eqb_refl, IHe. reflexivity.
  - rewrite IHe, Nat.eqb_refl. reflexivity.
Qed.

Lemma errors_Is_refl : forall e, errors_Is e e = true.
Proof.
  intros e.
  assert (H : forall b, error_eqb e e || b = true)
    by (intros b; rewrite error_eqb_refl; reflexivity).
  destruct e; apply H.
Qed.

(** [errors_Is] follows the [Unwrap] chain. *)
Lemma errors_Is_Unwrap : forall err target,
  errors_Is err target =
  error_eqb err target ||
  match Unwrap err with
  | Some inner => errors_Is inner target
  | None => false
  end.
Proof. intros err target. destruct err; reflexivity. Qed.

(** ** The rollback protocol, case by case *)

Section Rollback.

Variables (W : Type) (d : Driver W).

Lemma rollback_trace : forall tx err s,
  trace (run d (rollback tx err) s) = [CRollback tx (fst (d _ (Rollback tx) s))].
Proof.
  intros. unfold rollback. rewrite trace_bind, run_call. simpl.
  destruct (fst (d _ (Rollback tx) s)) as [rerr|].
  - destruct (errors_Is rerr ErrTxDone); reflexivity.
  - destruct (errors_Is err ErrNoRows); reflexivity.
Qed.

Lemma rollback_final : forall tx err s,
  final (run d (rollback tx err) s) = snd (d _ (Rollback tx) s).
Proof.
  intros. unfold rollback. rewrite final_bind, run_call. simpl.
  destruct (fst (d _ (Rollback tx) s)) as [rerr|].
  - destruct (errors_Is rerr ErrTxDone); reflexivity.
  - destruct (errors_Is err ErrNoRows); reflexivity.
Qed.

Lemma rollback_value : forall tx err s,
  value (run d (rollback tx err) s) =
  match fst (d _ (Rollback tx) s) with
  | Some rerr =>
      if errors_Is rerr ErrTxDone then err else Errorf_rollback err rerr
  | None =>
      if errors_Is err ErrNoRows then httperr_Wrap err StatusNotFound else err
  end.
Proof.
  intros. unfold rollback. rewrite value_bind, run_call. simpl.
  destruct (fst (d _ (Rollback tx) s)) as [rerr|].
  - destruct (errors_Is rerr ErrTxDone); reflexivity.
  - destruct (errors_Is err ErrNoRows); reflexivity.
Qed.

End Rollback.

(** ** The executors, call by call *)

Ltac step_run := repeat (rewrite ?run_bind, ?run_call; cbn [value final trace fst snd]).

Section Executors.

Variables (W : Type) (d : Driver W).

Lemma typed_WrapFn_begun : forall (T : Type) (Z0 : Zero T)
    (t : Typed.Typed T) ctx fn s tx s1,
  d _ (BeginTxx (Typed.dbx t) ctx) s = (inl tx, s1) ->
  let o := run d (fn tx) s1 in
  value (run d (Typed.WrapFn t ctx fn) s) = typed_resolve d tx o /\
  trace (run d (Typed.WrapFn t ctx fn) s) =
    CBegin (Typed.dbx t) ctx (inl tx) :: trace o ++
    [closing_call d tx (snd (value o)) o].
Proof.
  intros T Z0 t ctx fn s tx s1 Hb o. unfold Typed.WrapFn, typed_resolve, closing_call.
  step_run. rewrite Hb. step_run. fold o.
  destruct (value o) as [r [err|]]; step_run.
  - rewrite rollback_trace. split; reflexivity.
  - destruct (fst (d _ (Commit tx) (final o))) as [cerr|];
      [destruct (errors_Is cerr ErrTxDone)|]; split; reflexivity.
Qed.

Lemma typed_WrapFn_not_begun : forall (T : Type) (Z0 : Zero T)
    (t : Typed.Typed T) ctx fn s err s1,
  d _ (BeginTxx (Typed.dbx t) ctx) s = (inr err, s1) ->
  value (run d (Typed.WrapFn t ctx fn) s) =
    (zero, Some (Errorf_w "failed to begin transaction: " err)) /\
  trace (run d (Typed.WrapFn t ctx fn) s) =
    [CBegin (Typed.dbx t) ctx (inr err)].
Proof.
  intros T Z0 t ctx fn s err s1 Hb. unfold Typed.WrapFn.
  step_run. rewrite Hb. split; reflexivity.
Qed.

Lemma WrapFn_begun : forall (t : Transactional.Transactional) ctx fn s tx s1,
  d _ (BeginTxx (Transactional.dbx t) ctx) s = (inl tx, s1) ->
  let o := run d (fn tx) s1 in
  run d (Transactional.WrapFn t ctx fn) s =
    mkOutcome (resolve d tx o) (resolved_state d tx o)
      (CBegin (Transactional.dbx t) ctx (inl tx) :: trace o ++
       [closing_call d tx (value o) o]).
Proof.
  intros t ctx fn s tx s1 Hb o.
  unfold Transactional.WrapFn, resolve, resolved_state, closing_call.
  step_run. rewrite Hb. step_run. fold o.
  destruct (value o) as [err|]; step_run.
  - rewrite rollback_trace, rollback_final. reflexivity.
  - destruct (fst (d _ (Commit tx) (final o))) as [cerr|];
      [destruct (errors_Is cerr ErrTxDone)|]; reflexivity.
Qed.

Lemma WrapFn_not_begun : forall (t : Transactional.Transactional) ctx fn s err s1,
  d _ (BeginTxx (Transactional.dbx t) ctx) s = (inr err, s1) ->
  run d (Transactional.WrapFn t ctx fn) s =
    mkOutcome (Some (Errorf_w "failed to begin transaction: " err)) s1
      [CBegin (Transactional.dbx t) ctx (inr err)].
Proof.
  intros t ctx fn s err s1 Hb. unfold Transactional.WrapFn.
  step_run. rewrite Hb. reflexivity.
Qed.

End Executors.

(** ** The typed executor *)

(** C1.  When begin hands out a handle, the unit of work returns
    [(result, nil)] and the commit that follows returns nil, [Typed.WrapFn]
    returns that same result and a nil error. *)
Theorem typed_WrapFn_commit_ok : forall (T : Type) (Z0 : Zero T) (W : Type)
    (d : Driver W) (t : Typed.Typed T) ctx fn s tx s1 result,
  d _ (BeginTxx (Typed.dbx t) ctx) s = (inl tx, s1) ->
  value (run d (fn tx) s1) = (result, None) ->
  fst (d _ (Commit tx) (final (run d (fn tx) s1))) = None ->
  value (run d (Typed.WrapFn t ctx fn) s) = (result, None).
Proof.
  intros T Z0 W d t ctx fn s tx s1 result Hb Hfn Hc.
  destruct (typed_WrapFn_begun W d T Z0 t ctx fn s tx s1 Hb) as [Hv _].
  rewrite Hv. unfold typed_resolve. rewrite Hfn. cbn [fst snd].
  rewrite Hc. reflexivity.
Qed.

Lemma typed_WrapFn_commit_ok_witness :
  value (run (sql_driver no_faults)
             (Typed.WrapFn typed0 Background find_user_typed) sql_init)
  = (42%Z, None).
Proof.
  apply (@typed_WrapFn_commit_ok Z _ SqlState (sql_driver no_faults) typed0
           Background find_user_typed sql_init 1 sql_begun 42%Z);
    reflexivity.
Defined.

(** C2, as the code has it.  When the unit of work returns a non-nil error,
    [Typed.WrapFn] returns the outcome of the rollback protocol as the error
    and, as the result, the very value the unit of work returned alongside
    its error. *)
Theorem typed_WrapFn_failure_keeps_result : forall (T : Type) (Z0 : Zero T)
    (W : Type) (d : Driver W) (t : Typed.Typed T) ctx fn s tx s1 result err,
  d _ (BeginTxx (Typed.dbx t) ctx) s = (inl tx, s1) ->
  value (run d (fn tx) s1) = (result, Some err) ->
  value (run d (Typed.WrapFn t ctx fn) s) =
    (result, Some (value (run d (rollback tx err) (final (run d (fn tx) s1))))).
Proof.
  intros T Z0 W d t ctx fn s tx s1 result err Hb Hfn.
  destruct (typed_WrapFn_begun W d T Z0 t ctx fn s tx s1 Hb) as [Hv _].
  rewrite Hv. unfold typed_resolve. rewrite Hfn. reflexivity.
Qed.

Lemma typed_WrapFn_failure_keeps_result_witness :
  value (run (sql_driver missing_row)
             (Typed.WrapFn typed0 Background find_user_typed) sql_init)
  = (7%Z, Some (httperr_Wrap ErrNoRows StatusNotFound)).
Proof.
  apply (@typed_WrapFn_failure_keeps_result Z _ SqlState
           (sql_driver missing_row) typed0 Background find_user_typed
           sql_init 1 sql_begun 7%Z ErrNoRows);
    reflexivity.
Defined.

(** C2, as stated, fails: a unit of work that fails with the partial result
    7 makes [Typed.WrapFn] return 7, not the zero value of [Z]. *)
Lemma typed_WrapFn_failure_not_zero :
  let d := sql_driver missing_row in
  let o := run d (Typed.WrapFn typed0 Background find_user_typed) sql_init in
  fst (d _ (BeginTxx (Typed.dbx typed0) Background) sql_init) = inl 1 /\
  value (run d (find_user_typed 1) sql_begun) = (7%Z, Some ErrNoRows) /\
  fst (value o) = 7%Z /\
  value o <>
    (zero, Some (value (run d (rollback 1 ErrNoRows)
                            (final (run d (find_user_typed 1) sql_begun))))).
Proof.
  cbv zeta. repeat split. vm_compute. discriminate.
Qed.

(** ** The rollback protocol *)

(** C3, as the code has it.  When the rollback call on the handle returns
    nil, the protocol returns the triggering error unchanged unless that
    error is a "no matching row" error, which it returns wrapped as a
    not-found http error. *)
Theorem rollback_succeeds : forall (W : Type) (d : Driver W) tx err s,
  fst (d _ (Rollback tx) s) = None ->
  value (run d (rollback tx err) s) =
    if errors_Is err ErrNoRows then httperr_Wrap err StatusNotFound else err.
Proof.
  intros W d tx err s Hr. rewrite rollback_value, Hr. reflexivity.
Qed.

Lemma rollback_succeeds_witness :
  value (run (sql_driver no_faults) (rollback 1 (ErrOther "boom")) sql_begun)
  = ErrOther "boom" /\
  value (run (sql_driver no_faults) (rollback 1 ErrNoRows) sql_begun)
  = httperr_Wrap ErrNoRows StatusNotFound.
Proof.
  split.
  - apply (@rollback_succeeds SqlState (sql_driver no_faults) 1
             (ErrOther "boom") sql_begun); reflexivity.
  - apply (@rollback_succeeds SqlState (sql_driver no_faults) 1
             ErrNoRows sql_begun); reflexivity.
Defined.

(** C3, as stated, fails: the rollback succeeds and yet the triggering
    error [sql.ErrNoRows] does not come back unchanged. *)
Lemma rollback_succeeds_not_unchanged :
  fst (sql_driver no_faults _ (Rollback 1) sql_begun) = None /\
  value (run (sql_driver no_faults) (rollback 1 ErrNoRows) sql_begun)
  <> ErrNoRows.
Proof.
  split; [reflexivity | vm_compute; discriminate].
Qed.

(** C6.  When the rollback call fails with the "transaction already
    finished" condition, the protocol returns the triggering error
    unchanged. *)
Theorem rollback_already_finished : forall (W : Type) (d : Driver W) tx err s rerr,
  fst (d _ (Rollback tx) s) = Some rerr ->
  errors_Is rerr ErrTxDone = true ->
  value (run d (rollback tx err) s) = err.
Proof.
  intros W d tx err s rerr Hr Hdone.
  rewrite rollback_value, Hr, Hdone. reflexivity.
Qed.

Lemma rollback_already_finished_witness :
  value (run (sql_driver broken_rollback) (rollback 1 ErrNoRows) sql_done)
  = ErrNoRows.
Proof.
  apply (@rollback_already_finished SqlState (sql_driver broken_rollback) 1
           ErrNoRows sql_done ErrTxDone); reflexivity.
Defined.

(** C5, as the code has it.  When the rollback call fails for a reason other
    than "transaction already finished", the protocol returns a new error
    whose message is "failed to rollback: ", the message of the original
    error, ": " and the message of the rollback failure, in that order, and
    which wraps the rollback failure only: every condition of the rollback
    failure stays identifiable by error testing on the returned error, while
    the original error survives as text. *)
Theorem rollback_fails_otherwise : forall (W : Type) (d : Driver W) tx err s rerr,
  fst (d _ (Rollback tx) s) = Some rerr ->
  errors_Is rerr ErrTxDone = false ->
  let e := value (run d (rollback tx err) s) in
  Error e = ("failed to rollback: " ++ Error err ++ ": " ++ Error rerr)%string /\
  Unwrap e = Some rerr /\
  forall target, errors_Is e target = error_eqb e target || errors_Is rerr target.
Proof.
  intros W d tx err s rerr Hr Hdone e. subst e.
  rewrite rollback_value, Hr, Hdone. repeat split.
Qed.

Lemma rollback_fails_otherwise_witness :
  let e := value (run (sql_driver broken_rollback) (rollback 1 ErrNoRows) sql_begun) in
  Error e = "failed to rollback: sql: no rows in result set: connection reset" /\
  Unwrap e = Some (ErrOther "connection reset") /\
  forall target,
    errors_Is e target =
    error_eqb e target || errors_Is (ErrOther "connection reset") target.
Proof.
  apply (@rollback_fails_otherwise SqlState (sql_driver broken_rollback) 1
           ErrNoRows sql_begun (ErrOther "connection reset")); reflexivity.
Defined.

(** C5, as stated, fails: the rollback fails with a lost connection, the
    original error is [sql.ErrNoRows], and error testing on the returned
    error no longer identifies the no-rows condition. *)
Lemma rollback_fails_loses_cause :
  let d := sql_driver broken_rollback in
  let e := value (run d (rollback 1 ErrNoRows) sql_begun) in
  fst (d _ (Rollback 1) sql_begun) = Some (ErrOther "connection reset") /\
  errors_Is (ErrOther "connection reset") ErrTxDone = false /\
  errors_Is ErrNoRows ErrNoRows = true /\
  errors_Is e ErrNoRows = false.
Proof.
  cbv zeta. repeat split.
Qed.

(** ** Commit on a handle that is already finished *)

(** C7.  When the unit of work returns a nil error and the commit that
    follows fails with the "transaction already finished" condition,
    [Typed.WrapFn] returns a nil error with the result of the unit of work,
    and [Transactional.WrapFn] returns a nil error. *)
Theorem commit_already_finished : forall (W : Type) (d : Driver W) db ctx s tx s1,
  d _ (BeginTxx db ctx) s = (inl tx, s1) ->
  (forall (T : Type) (Z0 : Zero T) (fn : Tx -> Prog (T * option error)) result cerr,
     value (run d (fn tx) s1) = (result, None) ->
     fst (d _ (Commit tx) (final (run d (fn tx) s1))) = Some cerr ->
     errors_Is cerr ErrTxDone = true ->
     value (run d (Typed.WrapFn (Typed.WithDBAndType db) ctx fn) s)
     = (result, None)) /\
  (forall (fn : Tx -> Prog (option error)) cerr,
     value (run d (fn tx) s1) = None ->
     fst (d _ (Commit tx) (final (run d (fn tx) s1))) = Some cerr ->
     errors_Is cerr ErrTxDone = true ->
     value (run d (Transactional.WrapFn (Transactional.WithDB db) ctx fn) s)
     = None).
Proof.
  intros W d db ctx s tx s1 Hb. split.
  - intros T Z0 fn result cerr Hfn Hc Hdone.
    destruct (typed_WrapFn_begun W d T Z0 (Typed.WithDBAndType db) ctx fn s tx s1 Hb)
      as [Hv _].
    rewrite Hv. unfold typed_resolve. rewrite Hfn. cbn [fst snd].
    rewrite Hc, Hdone. reflexivity.
  - intros fn cerr Hfn Hc Hdone.
    rewrite (WrapFn_begun W d (Transactional.WithDB db) ctx fn s tx s1 Hb).
    cbn [value]. unfold resolve. rewrite Hfn, Hc, Hdone. reflexivity.
Qed.

Lemma commit_already_finished_witness :
  value (run (sql_driver no_faults)
             (Typed.WrapFn typed0 Background self_commit_typed) sql_init)
  = (42%Z, None) /\
  value (run (sql_driver no_faults)
             (Transactional.WrapFn trans0 Background self_commit) sql_init)
  = None.
Proof.
  destruct (@commit_already_finished SqlState (sql_driver no_faults) db0
              Background sql_init 1 sql_begun eq_refl) as [Ht Hf].
  split.
  - apply (Ht Z _ self_commit_typed 42%Z ErrTxDone); reflexivity.
  - apply (Hf self_commit ErrTxDone); reflexivity.
Defined.

(** ** The http wrapper, call by call *)

Section Wrap.

Variables (W : Type) (d : Driver W) (t : Transactional.Transactional).

(** Reuse state: the request carries a handle. *)
Lemma Wrap_func_reuse : forall h w r tx,
  Value_txKey (req_ctx r) = Some tx ->
  Transactional.Wrap_func t h w r =
    (err <- h tx w r ;;
     match err with
     | Some err => e <- rollback tx err ;; Ret (Some e)
     | None => Ret None
     end).
Proof.
  intros h w r tx Hctx. unfold Transactional.Wrap_func. rewrite Hctx. reflexivity.
Qed.

Lemma Wrap_reuse_failure : forall h eh w r tx s err,
  Value_txKey (req_ctx r) = Some tx ->
  value (run d (h tx w r) s) = Some err ->
  let o := run d (h tx w r) s in
  let e := value (run d (rollback tx err) (final o)) in
  trace (run d (Transactional.Wrap t h eh w r) s) =
    trace o ++ CRollback tx (fst (d _ (Rollback tx) (final o))) ::
    trace (run d (eh w (handed_error e)) (snd (d _ (Rollback tx) (final o)))).
Proof.
  intros h eh w r tx s err Hctx Hh o e.
  unfold Transactional.Wrap, NewFWithHandler.
  rewrite (Wrap_func_reuse h w r tx Hctx).
  rewrite !run_bind. cbn [value final trace]. fold o.
  replace (value o) with (Some err) by (symmetry; exact Hh).
  rewrite !run_bind. cbn [value final trace run]. fold e.
  rewrite rollback_trace, rollback_final, app_nil_r, <- app_assoc.
  reflexivity.
Qed.

(** Fresh state: the request carries no handle and begin hands one out. *)
Lemma Wrap_fresh : forall h eh w r s tx s1,
  Value_txKey (req_ctx r) = None ->
  d _ (BeginTxx (Transactional.dbx t) (req_ctx r)) s = (inl tx, s1) ->
  let r' := WithContext r (WithValue_txKey (req_ctx r) tx) in
  let o := run d (h tx w r') s1 in
  trace (run d (Transactional.Wrap t h eh w r) s) =
    CBegin (Transactional.dbx t) (req_ctx r) (inl tx) :: trace o ++
    closing_call d tx (value o) o ::
    trace (run d (match resolve d tx o with
                  | Some err => eh w (handed_error err)
                  | None => Ret tt
                  end) (resolved_state d tx o)).
Proof.
  intros h eh w r s tx s1 Hctx Hb r' o.
  unfold Transactional.Wrap, NewFWithHandler, Transactional.Wrap_func.
  rewrite Hctx. rewrite trace_bind.
  rewrite (WrapFn_begun W d t (req_ctx r)
             (fun tx0 => h tx0 w (WithContext r (WithValue_txKey (req_ctx r) tx0)))
             s tx s1 Hb).
  cbn [value final trace]. fold r'. fold o.
  rewrite <- app_comm_cons, <- app_assoc. reflexivity.
Qed.

End Wrap.

(** ** Where the not-found translation happens *)




(** ** Programs that begin nothing *)

Lemma NoBegin_bind : forall (A B : Type) (m : Prog A) (f : A -> Prog B),
  NoBegin m -> (forall a, NoBegin (f a)) -> NoBegin (bind m f).
Proof.
  intros A B m f Hm Hf. induction Hm; cbn [bind]; auto; constructor; auto.
Qed.

Lemma begins_app : forall tr1 tr2, begins (tr1 ++ tr2) = begins tr1 + begins tr2.
Proof.
  intros. unfold begins. rewrite filter_app, length_app. reflexivity.
Qed.

Lemma rollbacks_of_app : forall tx tr1 tr2,
  rollbacks_of tx (tr1 ++ tr2) = rollbacks_of tx tr1 + rollbacks_of tx tr2.
Proof. intros. unfold rollbacks_of. rewrite filter_app, length_app. reflexivity. Qed.

Lemma commits_of_app : forall tx tr1 tr2,
  commits_of tx (tr1 ++ tr2) = commits_of tx tr1 + commits_of tx tr2.
Proof. intros. unfold commits_of. rewrite filter_app, length_app. reflexivity. Qed.

Lemma NoBegin_begins : forall (W A : Type) (d : Driver W) (p : Prog A),
  NoBegin p -> forall s, begins (trace (run d p s)) = 0.
Proof.
  intros W A d p Hp. induction Hp as [a | tx k _ IH | tx k _ IH | tx q k _ IH | w err k _ IH];
    intros s; cbn [run]; [reflexivity | | | |];
    match goal with |- context [d ?X ?e s] => destruct (d X e s) as [x s1] end;
    cbn [trace record_call]; apply IH.
Qed.

Lemma rollback_NoBegin : forall tx err, NoBegin (rollback tx err).
Proof.
  intros. unfold rollback, call. cbn [bind]. constructor.
  intros [rerr|].
  - destruct (errors_Is rerr ErrTxDone); constructor.
  - destruct (errors_Is err ErrNoRows); constructor.
Qed.

Lemma render_NoBegin : forall w err, NoBegin (render w err).
Proof. intros. unfold render, call. constructor. intros. constructor. Qed.

Section Chains.

Variable t : Transactional.Transactional.

(** On a request that carries a handle, every level of a chain works on
    that handle. *)
Lemma chain_handler_on : forall c tx w r,
  Value_txKey (req_ctx r) = Some tx ->
  chain_handler t c tx w r = chain_on tx c w r.
Proof.
  induction c as [app | inner IH eh post]; intros tx w r Hctx.
  - reflexivity.
  - cbn [chain_handler chain_on].
    unfold Transactional.Wrap, NewFWithHandler.
    rewrite (Wrap_func_reuse t (chain_handler t inner) w r tx Hctx).
    rewrite (IH tx w r Hctx). reflexivity.
Qed.

Lemma chain_on_NoBegin : forall c tx w r,
  ChainNoBegin c -> NoBegin (chain_on tx c w r).
Proof.
  induction c as [app | inner IH eh post]; intros tx w r Hc.
  - apply Hc.
  - destruct Hc as [Hin [Heh Hpost]]. cbn [chain_on].
    apply NoBegin_bind; [| intros; apply Hpost].
    apply NoBegin_bind.
    + apply NoBegin_bind; [apply IH; exact Hin |].
      intros [err|]; [| constructor].
      apply NoBegin_bind; [apply rollback_NoBegin | intros; constructor].
    + intros [err|]; [apply Heh | constructor].
Qed.

End Chains.

(** ** One transaction per nested chain *)

(** C8.  Take a chain of handlers nested through [Wrap] to any depth, whose
    application logic and error handlers begin nothing themselves.  On a
    request whose context already carries a handle, [Wrap] runs every level
    of the chain on that carried handle and no begin call is issued at all;
    on a request that carries none, exactly one begin call is issued across
    the whole chain. *)
Theorem nested_chain_begins_once : forall (W : Type) (d : Driver W)
    (t : Transactional.Transactional) (c : Chain) (eh : ErrorHandler),
  ChainNoBegin c ->
  (forall w err, NoBegin (eh w err)) ->
  forall w r s,
  (forall tx, Value_txKey (req_ctx r) = Some tx ->
     Transactional.Wrap_func t (chain_handler t c) w r =
       (err <- chain_on tx c w r ;;
        match err with
        | Some err => e <- rollback tx err ;; Ret (Some e)
        | None => Ret None
        end) /\
     begins (trace (run d (Transactional.Wrap t (chain_handler t c) eh w r) s)) = 0) /\
  (Value_txKey (req_ctx r) = None ->
     begins (trace (run d (Transactional.Wrap t (chain_handler t c) eh w r) s)) = 1).
Proof.
  intros W d t c eh Hc Heh w r s. split.
  - intros tx Hctx.
    assert (Hf : Transactional.Wrap_func t (chain_handler t c) w r =
                 (err <- chain_on tx c w r ;;
                  match err with
                  | Some err => e <- rollback tx err ;; Ret (Some e)
                  | None => Ret None
                  end)).
    { rewrite (Wrap_func_reuse t (chain_handler t c) w r tx Hctx).
      rewrite (chain_handler_on t c tx w r Hctx). reflexivity. }
    split; [exact Hf |].
    apply NoBegin_begins. unfold Transactional.Wrap, NewFWithHandler.
    rewrite Hf. apply NoBegin_bind.
    + apply NoBegin_bind; [apply chain_on_NoBegin; exact Hc |].
      intros [err|]; [| constructor].
      apply NoBegin_bind; [apply rollback_NoBegin | intros; constructor].
    + intros [err|]; [apply Heh | constructor].
  - intros Hctx.
    destruct (d _ (BeginTxx (Transactional.dbx t) (req_ctx r)) s) as [[tx | berr] s1] eqn:Hb.
    + rewrite (Wrap_fresh W d t (chain_handler t c) eh w r s tx s1 Hctx Hb).
      rewrite (chain_handler_on t c tx w
                 (WithContext r (WithValue_txKey (req_ctx r) tx)) eq_refl).
      set (o := run d (chain_on tx c w _) s1).
      change (CBegin (Transactional.dbx t) (req_ctx r) (inl tx) :: trace o ++ ?x)
        with ([CBegin (Transactional.dbx t) (req_ctx r) (inl tx)] ++ trace o ++ x).
      rewrite begins_app, begins_app.
      unfold o at 1. rewrite (NoBegin_begins W _ d _ (chain_on_NoBegin c tx w _ Hc)).
      cbn [begins filter is_begin length Nat.add].
      assert (Hclose : is_begin (closing_call d tx (value o) o) = false)
        by (unfold closing_call; destruct (value o); reflexivity).
      unfold begins. cbn [filter]. rewrite Hclose. fold (begins (trace
        (run d match resolve d tx o with
               | Some err => eh w (handed_error err)
               | None => Ret tt
               end (resolved_state d tx o)))).
      rewrite NoBegin_begins; [reflexivity |].
      destruct (resolve d tx o); [apply Heh | constructor].
    + unfold Transactional.Wrap, NewFWithHandler, Transactional.Wrap_func.
      rewrite Hctx, trace_bind.
      rewrite (WrapFn_not_begun W d t (req_ctx r) _ s berr s1 Hb).
      cbn [value final trace]. rewrite begins_app.
      rewrite (NoBegin_begins W _ d _ (Heh w _)). reflexivity.
Qed.

Lemma chain3_NoBegin : ChainNoBegin chain3.
Proof.
  cbn. repeat split; intros; unfold find_user_h, find_user, render, call;
    repeat (constructor; intros).
Qed.

Lemma nested_chain_begins_once_witness :
  begins (trace (run (sql_driver missing_row)
                     (Transactional.Wrap trans0 (chain_handler trans0 chain3)
                        render 9 (req_carrying 1)) sql_begun)) = 0 /\
  begins (trace (run (sql_driver missing_row)
                     (Transactional.Wrap trans0 (chain_handler trans0 chain3)
                        render 9 req0) sql_init)) = 1.
Proof.
  split.
  - apply (proj1 (@nested_chain_begins_once SqlState (sql_driver missing_row)
                    trans0 chain3 render chain3_NoBegin render_NoBegin 9
                    (req_carrying 1) sql_begun) 1).
    reflexivity.
  - apply (proj2 (@nested_chain_begins_once SqlState (sql_driver missing_row)
                    trans0 chain3 render chain3_NoBegin render_NoBegin 9
                    req0 sql_init)).
    reflexivity.
Defined.

(** ** Who rolls back in the nested scenario *)

(** C9, as the code has it.  An outer [Wrap] begins a transaction and its
    handler serves the same request through an inner [Wrap], whose handler
    fails.  The inner, reusing call itself issues a rollback on the carried
    handle as soon as its handler has failed and returns the outcome of the
    rollback protocol; the outer invocation, seeing the propagated error,
    then issues a further rollback call on the same handle, so that the
    handle sees at least two rollback calls. *)
Theorem nested_failure_rollbacks : forall (W : Type) (d : Driver W)
    (t : Transactional.Transactional) (h : Handler) (eh : ErrorHandler)
    w r s tx s1 err propagated,
  Value_txKey (req_ctx r) = None ->
  d _ (BeginTxx (Transactional.dbx t) (req_ctx r)) s = (inl tx, s1) ->
  let r' := WithContext r (WithValue_txKey (req_ctx r) tx) in
  let o := run d (h tx w r') s1 in
  value o = Some err ->
  let reuse := run d (Transactional.Wrap_func t h w r') s1 in
  let inner := run d (Transactional.Wrap t h eh w r') s1 in
  let whole := run d (Transactional.Wrap_func t
                        (nested_outer t h eh (Some propagated)) w r) s in
  value reuse = Some (value (run d (rollback tx err) (final o))) /\
  trace reuse = trace o ++ [CRollback tx (fst (d _ (Rollback tx) (final o)))] /\
  (exists rest, trace inner = trace reuse ++ rest) /\
  value whole = Some (value (run d (rollback tx propagated) (final inner))) /\
  trace whole =
    CBegin (Transactional.dbx t) (req_ctx r) (inl tx) :: trace inner ++
    [CRollback tx (fst (d _ (Rollback tx) (final inner)))] /\
  rollbacks_of tx (trace whole) >= 2.
Proof.
  intros W d t h eh w r s tx s1 err propagated Hctx Hb r' o Ho reuse inner whole.
  assert (Hreuse : run d (Transactional.Wrap_func t h w r') s1 =
                   mkOutcome (Some (value (run d (rollback tx err) (final o))))
                     (snd (d _ (Rollback tx) (final o)))
                     (trace o ++ [CRollback tx (fst (d _ (Rollback tx) (final o)))])).
  { rewrite (Wrap_func_reuse t h w r' tx eq_refl).
    rewrite run_bind. cbn [value final trace]. fold o. rewrite Ho.
    rewrite run_bind. cbn [value final trace run].
    rewrite rollback_trace, rollback_final, app_nil_r. reflexivity. }
  assert (Hinner : exists rest, trace inner = trace reuse ++ rest).
  { unfold inner, Transactional.Wrap, NewFWithHandler.
    rewrite trace_bind. fold reuse. eexists. reflexivity. }
  assert (Hwhole : run d (Transactional.Wrap_func t
                            (nested_outer t h eh (Some propagated)) w r) s =
                   mkOutcome
                     (Some (value (run d (rollback tx propagated) (final inner))))
                     (snd (d _ (Rollback tx) (final inner)))
                     (CBegin (Transactional.dbx t) (req_ctx r) (inl tx) ::
                      trace inner ++
                      [CRollback tx (fst (d _ (Rollback tx) (final inner)))])).
  { unfold Transactional.Wrap_func. rewrite Hctx.
    rewrite (WrapFn_begun W d t (req_ctx r) _ s tx s1 Hb).
    fold r'. unfold nested_outer. cbn [chain_handler].
    rewrite run_bind. cbn [value final trace run]. fold inner.
    unfold resolve, resolved_state, closing_call. cbn [value final trace].
    rewrite app_nil_r. reflexivity. }
  unfold reuse at 1 2. rewrite Hreuse. unfold whole. rewrite Hwhole.
  cbn [value trace].
  split; [reflexivity |]. split; [reflexivity |]. split; [exact Hinner |].
  split; [reflexivity |]. split; [reflexivity |].
  destruct Hinner as [rest Hrest]. rewrite Hrest. unfold reuse. rewrite Hreuse.
  cbn [trace].
  change (CBegin (Transactional.dbx t) (req_ctx r) (inl tx) :: ?x)
    with ([CBegin (Transactional.dbx t) (req_ctx r) (inl tx)] ++ x).
  rewrite !rollbacks_of_app.
  unfold rollbacks_of at 3 5. cbn [filter is_rollback_of length].
  rewrite Nat.eqb_refl. cbn [length]. lia.
Qed.

Lemma nested_failure_rollbacks_witness :
  let d := sql_driver missing_row in
  let r' := WithContext req0 (WithValue_txKey Background 1) in
  let reuse := run d (Transactional.Wrap_func trans0 find_user_h 9 r') sql_begun in
  let whole := run d (Transactional.Wrap_func trans0
                        (nested_outer trans0 find_user_h render (Some ErrNoRows))
                        9 req0) sql_init in
  value reuse = Some (httperr_Wrap ErrNoRows StatusNotFound) /\
  trace reuse = [CExec 1 "SELECT * FROM users WHERE id = 1" (Some ErrNoRows);
                 CRollback 1 None] /\
  value whole = Some ErrNoRows /\
  rollbacks_of 1 (trace whole) >= 2.
Proof.
  pose proof (@nested_failure_rollbacks SqlState (sql_driver missing_row) trans0
                find_user_h render 9 req0 sql_init 1 sql_begun ErrNoRows
                ErrNoRows eq_refl eq_refl eq_refl) as [H1 [H2 [_ [H4 [_ H6]]]]].
  split; [exact H1 |]. split; [exact H2 |]. split; [exact H4 | exact H6].
Defined.

(** C9, as stated, fails: in the nested scenario the inner, reusing call
    does issue a rollback on the handle, so the handle sees two rollback
    calls and the outer one is not the single one. *)
Lemma inner_reuse_rolls_back :
  let d := sql_driver missing_row in
  let r' := WithContext req0 (WithValue_txKey Background 1) in
  let reuse := run d (Transactional.Wrap_func trans0 find_user_h 9 r') sql_begun in
  let whole := run d (Transactional.Wrap_func trans0
                        (nested_outer trans0 find_user_h render (Some ErrNoRows))
                        9 req0) sql_init in
  Value_txKey (req_ctx r') = Some 1 /\
  value (run d (find_user_h 1 9 r') sql_begun) = Some ErrNoRows /\
  rollbacks_of 1 (trace reuse) <> 0 /\
  rollbacks_of 1 (trace whole) <> 1 /\
  trace whole =
    [CBegin db0 Background (inl 1);
     CExec 1 "SELECT * FROM users WHERE id = 1" (Some ErrNoRows);
     CRollback 1 None;
     CRender 9 (ErrHTTP ErrNoRows 404);
     CRollback 1 (Some ErrTxDone)] /\
  value whole = Some ErrNoRows.
Proof.
  cbv zeta. split; [reflexivity |]. split; [reflexivity |].
  split; [vm_compute; discriminate |]. split; [vm_compute; discriminate |].
  split; reflexivity.
Qed.

(** ** The function-only executors never look into the context *)

(** C10.  [Transactional.WrapFn] and [Typed.WrapFn] use the context for one
    thing only, as the argument of the begin call they always issue first:
    whatever the context holds, a handle under the private key included,
    the rest of what they do does not depend on it.  Looking for a carried
    handle is done by the function of [Wrap] alone, which reuses the handle
    when the request carries one and otherwise delegates to
    [Transactional.WrapFn]. *)
Theorem WrapFn_never_reads_context : forall (t : Transactional.Transactional)
    (T : Type) (Z0 : Zero T) (ty : Typed.Typed T)
    (fn : Tx -> Prog (option error)) (fn_t : Tx -> Prog (T * option error)),
  (exists k, forall ctx,
     Transactional.WrapFn t ctx fn = Vis (BeginTxx (Transactional.dbx t) ctx) k) /\
  (exists k, forall ctx,
     Typed.WrapFn ty ctx fn_t = Vis (BeginTxx (Typed.dbx ty) ctx) k) /\
  (forall (W : Type) (d : Driver W) ctx s,
     hd_error (trace (run d (Transactional.WrapFn t ctx fn) s)) =
       Some (CBegin (Transactional.dbx t) ctx
               (fst (d _ (BeginTxx (Transactional.dbx t) ctx) s))) /\
     hd_error (trace (run d (Typed.WrapFn ty ctx fn_t) s)) =
       Some (CBegin (Typed.dbx ty) ctx
               (fst (d _ (BeginTxx (Typed.dbx ty) ctx) s)))) /\
  (forall (h : Handler) w r,
     Transactional.Wrap_func t h w r =
     match Value_txKey (req_ctx r) with
     | Some tx =>
         err <- h tx w r ;;
         match err with
         | Some err => e <- rollback tx err ;; Ret (Some e)
         | None => Ret None
         end
     | None =>
         Transactional.WrapFn t (req_ctx r) (fun tx =>
           h tx w (WithContext r (WithValue_txKey (req_ctx r) tx)))
     end).
Proof.
  intros t T Z0 ty fn fn_t. split; [| split; [| split]].
  - eexists. intros ctx. reflexivity.
  - eexists. intros ctx. reflexivity.
  - intros W d ctx s. split.
    + unfold Transactional.WrapFn, call. cbn [bind run].
      destruct (d _ (BeginTxx (Transactional.dbx t) ctx) s); reflexivity.
    + unfold Typed.WrapFn, call. cbn [bind run].
      destruct (d _ (BeginTxx (Typed.dbx ty) ctx) s); reflexivity.
  - intros h w r. reflexivity.
Qed.

(** On a context that already carries handle 7, both executors still begin
    a transaction of their own and run the unit of work on the new handle. *)
Example WrapFn_on_carrying_context :
  trace (run (sql_driver no_faults)
             (Transactional.WrapFn trans0 (WithTx Background 7) find_user)
             sql_init)
  = [CBegin db0 (WithTx Background 7) (inl 1);
     CExec 1 "SELECT * FROM users WHERE id = 1" None;
     CCommit 1 None] /\
  trace (run (sql_driver no_faults)
             (Typed.WrapFn typed0 (WithTx Background 7) find_user_typed)
             sql_init)
  = [CBegin db0 (WithTx Background 7) (inl 1);
     CExec 1 "SELECT * FROM users WHERE id = 1" None;
     CCommit 1 None].
Proof. split; reflexivity. Qed.


(** * Further properties of the package *)

(** ** Causes stay identifiable through [%w] *)

Lemma Errorf_w_keeps_cause : forall prefix err target,
  errors_Is err target = true -> errors_Is (Errorf_w prefix err) target = true.
Proof.
  intros prefix err target H. unfold Errorf_w. cbn [errors_Is].
  rewrite H. apply orb_true_r.
Qed.

(** ** When begin fails *)

(** X1.  When begin fails, both executors return at once: the error is
    "failed to begin transaction: " followed by the message of the begin
    failure, every condition of the begin failure stays identifiable on it,
    [Typed.WrapFn] returns the zero value beside it, and the begin call is
    the only call issued: the unit of work is not run and nothing is
    committed or rolled back. *)
Theorem WrapFn_begin_fails : forall (W : Type) (d : Driver W) db ctx s berr s1,
  d _ (BeginTxx db ctx) s = (inr berr, s1) ->
  let e := Errorf_w "failed to begin transaction: " berr in
  Error e = ("failed to begin transaction: " ++ Error berr)%string /\
  (forall target, errors_Is berr target = true -> errors_Is e target = true) /\
  (forall fn,
     run d (Transactional.WrapFn (Transactional.WithDB db) ctx fn) s =
     mkOutcome (Some e) s1 [CBegin db ctx (inr berr)]) /\
  (forall (T : Type) (Z0 : Zero T) (fn : Tx -> Prog (T * option error)),
     run d (Typed.WrapFn (Typed.WithDBAndType db) ctx fn) s =
     mkOutcome (zero, Some e) s1 [CBegin db ctx (inr berr)]).
Proof.
  intros W d db ctx s berr s1 Hb e. subst e. split; [reflexivity |].
  split; [intros target; apply Errorf_w_keeps_cause |]. split.
  - intros fn. apply (WrapFn_not_begun W d (Transactional.WithDB db) ctx fn s berr s1 Hb).
  - intros T Z0 fn. unfold Typed.WrapFn. step_run.
    cbn [Typed.dbx]. rewrite Hb. reflexivity.
Qed.

Lemma WrapFn_begin_fails_witness :
  run (sql_driver broken_begin)
      (Transactional.WrapFn trans0 Background find_user) sql_init
  = mkOutcome
      (Some (ErrWrapf "failed to begin transaction: connection refused"
               (ErrOther "connection refused")))
      sql_init
      [CBegin db0 Background (inr (ErrOther "connection refused"))] /\
  run (sql_driver broken_begin)
      (Typed.WrapFn typed0 Background find_user_typed) sql_init
  = mkOutcome
      (0%Z, Some (ErrWrapf "failed to begin transaction: connection refused"
                    (ErrOther "connection refused")))
      sql_init
      [CBegin db0 Background (inr (ErrOther "connection refused"))].
Proof.
  pose proof (@WrapFn_begin_fails SqlState (sql_driver broken_begin) db0
                Background sql_init (ErrOther "connection refused") sql_init
                eq_refl) as [_ [_ [Hf Ht]]].
  split; [apply (Hf find_user) | apply (Ht Z _ find_user_typed)].
Defined.

(** ** The executors, as whole outcomes *)

Section Outcomes.

Variables (W : Type) (d : Driver W).

Lemma typed_WrapFn_outcome : forall (T : Type) (Z0 : Zero T)
    (t : Typed.Typed T) ctx fn s tx s1,
  d _ (BeginTxx (Typed.dbx t) ctx) s = (inl tx, s1) ->
  let o := run d (fn tx) s1 in
  run d (Typed.WrapFn t ctx fn) s =
    mkOutcome (typed_resolve d tx o)
      (match snd (value o) with
       | Some _ => snd (d _ (Rollback tx) (final o))
       | None => snd (d _ (Commit tx) (final o))
       end)
      (CBegin (Typed.dbx t) ctx (inl tx) :: trace o ++
       [closing_call d tx (snd (value o)) o]).
Proof.
  intros T Z0 t ctx fn s tx s1 Hb o.
  unfold Typed.WrapFn, typed_resolve, closing_call.
  step_run. rewrite Hb. step_run. fold o.
  destruct (value o) as [r [err|]]; step_run.
  - rewrite rollback_trace, rollback_final. reflexivity.
  - destruct (fst (d _ (Commit tx) (final o))) as [cerr|];
      [destruct (errors_Is cerr ErrTxDone)|]; reflexivity.
Qed.

Lemma Wrap_reuse_outcome : forall (t : Transactional.Transactional)
    h eh w r tx s,
  Value_txKey (req_ctx r) = Some tx ->
  let o := run d (h tx w r) s in
  run d (Transactional.Wrap t h eh w r) s =
    match value o with
    | Some err =>
        let oe := run d (eh w (handed_error
                                 (value (run d (rollback tx err) (final o)))))
                    (snd (d _ (Rollback tx) (final o))) in
        mkOutcome (value oe) (final oe)
          (trace o ++ CRollback tx (fst (d _ (Rollback tx) (final o))) :: trace oe)
    | None => mkOutcome tt (final o) (trace o)
    end.
Proof.
  intros t h eh w r tx s Hctx o.
  unfold Transactional.Wrap, NewFWithHandler.
  rewrite (Wrap_func_reuse t h w r tx Hctx).
  rewrite !run_bind. cbn [value final trace]. fold o.
  destruct (value o) as [err|].
  - rewrite !run_bind. cbn [value final trace run].
    rewrite rollback_trace, rollback_final, app_nil_r, <- app_assoc.
    reflexivity.
  - cbn [run value final trace]. rewrite !app_nil_r. reflexivity.
Qed.

Lemma Wrap_fresh_outcome : forall (t : Transactional.Transactional)
    h eh w r s,
  Value_txKey (req_ctx r) = None ->
  let o := run d (Transactional.WrapFn t (req_ctx r) (fun tx =>
             h tx w (WithContext r (WithValue_txKey (req_ctx r) tx)))) s in
  let oe := run d (match value o with
                   | Some err => eh w (handed_error err)
                   | None => Ret tt
                   end) (final o) in
  run d (Transactional.Wrap t h eh w r) s =
    mkOutcome (value oe) (final oe) (trace o ++ trace oe).
Proof.
  intros t h eh w r s Hctx o oe.
  unfold Transactional.Wrap, NewFWithHandler, Transactional.Wrap_func.
  rewrite Hctx, run_bind. reflexivity.
Qed.

End Outcomes.

(** ** When the commit is refused *)

(** X2.  When the unit of work succeeds and the commit fails for a reason
    other than "transaction already finished", both executors return
    "failed to commit transaction: " followed by the message of the commit
    failure, with every condition of the commit failure identifiable on it;
    [Typed.WrapFn] still returns the result of the unit of work beside the
    error, and the failed commit is the last call issued: no rollback is
    attempted after it. *)
Theorem WrapFn_commit_fails : forall (W : Type) (d : Driver W) db ctx s tx s1 cerr,
  d _ (BeginTxx db ctx) s = (inl tx, s1) ->
  errors_Is cerr ErrTxDone = false ->
  let e := Errorf_w "failed to commit transaction: " cerr in
  Error e = ("failed to commit transaction: " ++ Error cerr)%string /\
  (forall target, errors_Is cerr target = true -> errors_Is e target = true) /\
  (forall fn,
     value (run d (fn tx) s1) = None ->
     fst (d _ (Commit tx) (final (run d (fn tx) s1))) = Some cerr ->
     let o := run d (Transactional.WrapFn (Transactional.WithDB db) ctx fn) s in
     value o = Some e /\
     trace o = CBegin db ctx (inl tx) :: trace (run d (fn tx) s1) ++
               [CCommit tx (Some cerr)]) /\
  (forall (T : Type) (Z0 : Zero T) (fn : Tx -> Prog (T * option error)) result,
     value (run d (fn tx) s1) = (result, None) ->
     fst (d _ (Commit tx) (final (run d (fn tx) s1))) = Some cerr ->
     let o := run d (Typed.WrapFn (Typed.WithDBAndType db) ctx fn) s in
     value o = (result, Some e) /\
     trace o = CBegin db ctx (inl tx) :: trace (run d (fn tx) s1) ++
               [CCommit tx (Some cerr)]).
Proof.
  intros W d db ctx s tx s1 cerr Hb Hdone e. subst e.
  split; [reflexivity |].
  split; [intros target; apply Errorf_w_keeps_cause |]. split.
  - intros fn Hfn Hc o. subst o.
    rewrite (WrapFn_begun W d (Transactional.WithDB db) ctx fn s tx s1 Hb).
    cbn [value trace Transactional.dbx]. unfold resolve, closing_call.
    rewrite Hfn, Hc, Hdone. split; reflexivity.
  - intros T Z0 fn result Hfn Hc o. subst o.
    rewrite (typed_WrapFn_outcome W d T Z0 (Typed.WithDBAndType db) ctx fn s tx s1 Hb).
    cbn [value trace Typed.dbx]. unfold typed_resolve, closing_call.
    rewrite Hfn. cbn [fst snd]. rewrite Hc, Hdone. split; reflexivity.
Qed.

Lemma WrapFn_commit_fails_witness :
  (let o := run (sql_driver broken_commit)
              (Transactional.WrapFn trans0 Background find_user) sql_init in
   value o = Some (ErrWrapf "failed to commit transaction: serialization failure"
                     (ErrOther "serialization failure")) /\
   trace o = [CBegin db0 Background (inl 1);
              CExec 1 "SELECT * FROM users WHERE id = 1" None;
              CCommit 1 (Some (ErrOther "serialization failure"))]) /\
  (let o := run (sql_driver broken_commit)
              (Typed.WrapFn typed0 Background find_user_typed) sql_init in
   value o = (42%Z,
              Some (ErrWrapf "failed to commit transaction: serialization failure"
                      (ErrOther "serialization failure"))) /\
   trace o = [CBegin db0 Background (inl 1);
              CExec 1 "SELECT * FROM users WHERE id = 1" None;
              CCommit 1 (Some (ErrOther "serialization failure"))]).
Proof.
  pose proof (@WrapFn_commit_fails SqlState (sql_driver broken_commit) db0
                Background sql_init 1 sql_begun
                (ErrOther "serialization failure") eq_refl eq_refl)
    as [_ [_ [Hf Ht]]].
  split.
  - apply (Hf find_user); reflexivity.
  - apply (Ht Z _ find_user_typed 42%Z); reflexivity.
Defined.

(** ** When the executors report success *)

(** X3.  Once begin has succeeded, an executor returns a nil error exactly
    when the unit of work returned a nil error and the commit either
    succeeded or failed with "transaction already finished": the error of a
    failed unit of work is never swallowed. *)
Theorem WrapFn_nil_iff : forall (W : Type) (d : Driver W) db ctx s tx s1,
  d _ (BeginTxx db ctx) s = (inl tx, s1) ->
  (forall fn,
     let o := run d (fn tx) s1 in
     value (run d (Transactional.WrapFn (Transactional.WithDB db) ctx fn) s) = None <->
     value o = None /\
     match fst (d _ (Commit tx) (final o)) with
     | Some cerr => errors_Is cerr ErrTxDone = true
     | None => True
     end) /\
  (forall (T : Type) (Z0 : Zero T) (fn : Tx -> Prog (T * option error)),
     let o := run d (fn tx) s1 in
     snd (value (run d (Typed.WrapFn (Typed.WithDBAndType db) ctx fn) s)) = None <->
     snd (value o) = None /\
     match fst (d _ (Commit tx) (final o)) with
     | Some cerr => errors_Is cerr ErrTxDone = true
     | None => True
     end).
Proof.
  intros W d db ctx s tx s1 Hb. split.
  - intros fn o.
    rewrite (WrapFn_begun W d (Transactional.WithDB db) ctx fn s tx s1 Hb).
    cbn [value]. fold o. unfold resolve.
    destruct (value o) as [err|].
    + split; [discriminate | intros [H _]; discriminate].
    + destruct (fst (d _ (Commit tx) (final o))) as [cerr|].
      * destruct (errors_Is cerr ErrTxDone); split; auto; try discriminate.
        intros [_ H]; discriminate.
      * split; auto.
  - intros T Z0 fn o.
    rewrite (typed_WrapFn_outcome W d T Z0 (Typed.WithDBAndType db) ctx fn s tx s1 Hb).
    cbn [value]. fold o. unfold typed_resolve.
    destruct (snd (value o)) as [err|].
    + split; [discriminate | intros [H _]; discriminate].
    + destruct (fst (d _ (Commit tx) (final o))) as [cerr|].
      * destruct (errors_Is cerr ErrTxDone); cbn [snd]; split; auto; try discriminate.
        intros [_ H]; discriminate.
      * split; auto.
Qed.

Lemma WrapFn_nil_iff_witness :
  value (run (sql_driver no_faults)
             (Transactional.WrapFn trans0 Background find_user) sql_init) = None /\
  snd (value (run (sql_driver no_faults)
                  (Typed.WrapFn typed0 Background self_commit_typed) sql_init))
  = None.
Proof.
  pose proof (@WrapFn_nil_iff SqlState (sql_driver no_faults) db0 Background
                sql_init 1 sql_begun eq_refl) as [Hf Ht].
  split.
  - apply (proj2 (Hf find_user)). split; [reflexivity | exact I].
  - apply (proj2 (Ht Z _ self_commit_typed)). split; reflexivity.
Defined.

(** ** One closing call per transaction *)

Lemma closing_call_counts : forall (W A : Type) (d : Driver W) db ctx tx
    (err : option error) (o : Outcome W A),
  let tr := CBegin db ctx (inl tx) :: trace o ++ [closing_call d tx err o] in
  match err with
  | Some _ =>
      rollbacks_of tx tr = rollbacks_of tx (trace o) + 1 /\
      commits_of tx tr = commits_of tx (trace o)
  | None =>
      commits_of tx tr = commits_of tx (trace o) + 1 /\
      rollbacks_of tx tr = rollbacks_of tx (trace o)
  end.
Proof.
  intros W A d db ctx tx err o tr. subst tr.
  change (CBegin db ctx (inl tx) :: trace o ++ [closing_call d tx err o])
    with ([CBegin db ctx (inl tx)] ++ trace o ++ [closing_call d tx err o]).
  rewrite !rollbacks_of_app, !commits_of_app.
  unfold closing_call, rollbacks_of, commits_of.
  destruct err; cbn [filter is_rollback_of is_commit_of length];
    rewrite Nat.eqb_refl; cbn [length]; lia.
Qed.

(** X4.  Once begin has succeeded, an executor itself issues exactly one
    closing call on the handle, after the unit of work: when the unit of
    work fails, one rollback more than the unit of work issued and no commit
    of its own; when it succeeds, one commit more and no rollback of its
    own. *)
Theorem WrapFn_closes_once : forall (W : Type) (d : Driver W) db ctx s tx s1,
  d _ (BeginTxx db ctx) s = (inl tx, s1) ->
  (forall fn,
     let o := run d (fn tx) s1 in
     let tr := trace (run d (Transactional.WrapFn (Transactional.WithDB db) ctx fn) s) in
     match value o with
     | Some _ =>
         rollbacks_of tx tr = rollbacks_of tx (trace o) + 1 /\
         commits_of tx tr = commits_of tx (trace o)
     | None =>
         commits_of tx tr = commits_of tx (trace o) + 1 /\
         rollbacks_of tx tr = rollbacks_of tx (trace o)
     end) /\
  (forall (T : Type) (Z0 : Zero T) (fn : Tx -> Prog (T * option error)),
     let o := run d (fn tx) s1 in
     let tr := trace (run d (Typed.WrapFn (Typed.WithDBAndType db) ctx fn) s) in
     match snd (value o) with
     | Some _ =>
         rollbacks_of tx tr = rollbacks_of tx (trace o) + 1 /\
         commits_of tx tr = commits_of tx (trace o)
     | None =>
         commits_of tx tr = commits_of tx (trace o) + 1 /\
         rollbacks_of tx tr = rollbacks_of tx (trace o)
     end).
Proof.
  intros W d db ctx s tx s1 Hb. split.
  - intros fn o tr. subst tr.
    rewrite (WrapFn_begun W d (Transactional.WithDB db) ctx fn s tx s1 Hb).
    cbn [trace Transactional.dbx]. fold o.
    apply (closing_call_counts W _ d db ctx tx (value o) o).
  - intros T Z0 fn o tr. subst tr.
    rewrite (typed_WrapFn_outcome W d T Z0 (Typed.WithDBAndType db) ctx fn s tx s1 Hb).
    cbn [trace Typed.dbx]. fold o.
    apply (closing_call_counts W _ d db ctx tx (snd (value o)) o).
Qed.

Lemma WrapFn_closes_once_witness :
  (let tr := trace (run (sql_driver missing_row)
                      (Transactional.WrapFn trans0 Background find_user) sql_init) in
   rollbacks_of 1 tr = 1 /\ commits_of 1 tr = 0) /\
  (let tr := trace (run (sql_driver no_faults)
                      (Typed.WrapFn typed0 Background self_commit_typed) sql_init) in
   commits_of 1 tr = 2 /\ rollbacks_of 1 tr = 0).
Proof.
  split.
  - apply (proj1 (@WrapFn_closes_once SqlState (sql_driver missing_row) db0
                    Background sql_init 1 sql_begun eq_refl) find_user).
  - apply (proj2 (@WrapFn_closes_once SqlState (sql_driver no_faults) db0
                    Background sql_init 1 sql_begun eq_refl) Z _ self_commit_typed).
Defined.

(** ** The two executors agree *)

(** X5.  [Transactional.WrapFn] does what [Typed.WrapFn] does at a result
    type without content: on the same database and context they return the
    same error, issue the same calls and leave the same state. *)
Theorem WrapFn_agrees_with_typed : forall (W : Type) (d : Driver W) db ctx
    (fn : Tx -> Prog (option error)) s,
  let o := run d (Transactional.WrapFn (Transactional.WithDB db) ctx fn) s in
  let o' := run d (Typed.WrapFn (Typed.WithDBAndType db) ctx (discard_result fn)) s in
  value o = snd (value o') /\ trace o = trace o' /\ final o = final o'.
Proof.
  intros W d db ctx fn s o o'. subst o o'.
  destruct (d _ (BeginTxx db ctx) s) as [[tx | berr] s1] eqn:Hb.
  - rewrite (WrapFn_begun W d (Transactional.WithDB db) ctx fn s tx s1 Hb).
    rewrite (typed_WrapFn_outcome W d unit _ (Typed.WithDBAndType db) ctx
               (discard_result fn) s tx s1 Hb).
    cbn [value final trace Transactional.dbx Typed.dbx].
    unfold discard_result. rewrite run_bind. cbn [run value final trace].
    rewrite app_nil_r.
    unfold resolve, typed_resolve, resolved_state, closing_call.
    cbn [value final trace fst snd].
    destruct (value (run d (fn tx) s1)) as [err|].
    + repeat split.
    + destruct (fst (d _ (Commit tx) (final (run d (fn tx) s1)))) as [cerr|];
        [destruct (errors_Is cerr ErrTxDone)|]; repeat split.
  - rewrite (WrapFn_not_begun W d (Transactional.WithDB db) ctx fn s berr s1 Hb).
    unfold Typed.WrapFn. step_run. cbn [Typed.dbx]. rewrite Hb.
    repeat split.
Qed.

(** ** The http wrapper on its other paths *)

(** X6.  On a request that carries a handle, when the handler succeeds
    [Wrap] does nothing beyond running the handler on the carried handle: it
    issues no begin, commit or rollback of its own and the error handler is
    not run, the handle being left open for whoever began it. *)
Theorem Wrap_reuse_success : forall (W : Type) (d : Driver W)
    (t : Transactional.Transactional) h eh w r tx s,
  Value_txKey (req_ctx r) = Some tx ->
  value (run d (h tx w r) s) = None ->
  run d (Transactional.Wrap t h eh w r) s =
    mkOutcome tt (final (run d (h tx w r) s)) (trace (run d (h tx w r) s)).
Proof.
  intros W d t h eh w r tx s Hctx Hh.
  rewrite (Wrap_reuse_outcome W d t h eh w r tx s Hctx), Hh. reflexivity.
Qed.

Lemma Wrap_reuse_success_witness :
  run (sql_driver no_faults)
      (Transactional.Wrap trans0 find_user_h render 9 (req_carrying 1)) sql_begun
  = mkOutcome tt sql_begun [CExec 1 "SELECT * FROM users WHERE id = 1" None].
Proof.
  apply (@Wrap_reuse_success SqlState (sql_driver no_faults) trans0 find_user_h
           render 9 (req_carrying 1) 1 sql_begun); reflexivity.
Defined.

(** X7.  On a request that carries no handle, [Wrap] runs the handler on
    the handle it has begun and on the same request with that handle
    attached to its context; when the handler succeeds and the commit
    succeeds or fails with "transaction already finished", the calls are the
    begin, those of the handler and one commit, and the error handler is not
    run. *)
Theorem Wrap_fresh_success : forall (W : Type) (d : Driver W)
    (t : Transactional.Transactional) h eh w r s tx s1,
  Value_txKey (req_ctx r) = None ->
  d _ (BeginTxx (Transactional.dbx t) (req_ctx r)) s = (inl tx, s1) ->
  let r' := WithContext r (WithValue_txKey (req_ctx r) tx) in
  let o := run d (h tx w r') s1 in
  value o = None ->
  match fst (d _ (Commit tx) (final o)) with
  | Some cerr => errors_Is cerr ErrTxDone = true
  | None => True
  end ->
  Value_txKey (req_ctx r') = Some tx /\ req_url r' = req_url r /\
  run d (Transactional.Wrap t h eh w r) s =
    mkOutcome tt (snd (d _ (Commit tx) (final o)))
      (CBegin (Transactional.dbx t) (req_ctx r) (inl tx) :: trace o ++
       [CCommit tx (fst (d _ (Commit tx) (final o)))]).
Proof.
  intros W d t h eh w r s tx s1 Hctx Hb r' o Ho Hc.
  split; [reflexivity |]. split; [reflexivity |].
  rewrite (Wrap_fresh_outcome W d t h eh w r s Hctx).
  rewrite (WrapFn_begun W d t (req_ctx r)
             (fun tx0 => h tx0 w (WithContext r (WithValue_txKey (req_ctx r) tx0)))
             s tx s1 Hb).
  cbn [value final trace]. fold r'. fold o.
  unfold resolve, resolved_state, closing_call. rewrite Ho.
  destruct (fst (d _ (Commit tx) (final o))) as [cerr|].
  - rewrite Hc. cbn [run value final trace]. rewrite app_nil_r. reflexivity.
  - cbn [run value final trace]. rewrite app_nil_r. reflexivity.
Qed.

Lemma Wrap_fresh_success_witness :
  run (sql_driver no_faults)
      (Transactional.Wrap trans0 self_commit_h render 9 req0) sql_init
  = mkOutcome tt sql_done
      [CBegin db0 Background (inl 1); CCommit 1 None;
       CCommit 1 (Some ErrTxDone)].
Proof.
  apply (@Wrap_fresh_success SqlState (sql_driver no_faults) trans0
           self_commit_h render 9 req0 sql_init 1 sql_begun);
    reflexivity.
Defined.

(** X8.  On a request that carries no handle, when begin fails [Wrap] never
    runs the handler: the begin call is followed only by the error handler,
    run on what the adapter hands it of "failed to begin transaction: " and
    the begin failure, which is that very error whenever the begin failure
    holds no [httperr.Error] on its chain. *)
Theorem Wrap_begin_fails : forall (W : Type) (d : Driver W)
    (t : Transactional.Transactional) h eh w r s berr s1,
  Value_txKey (req_ctx r) = None ->
  d _ (BeginTxx (Transactional.dbx t) (req_ctx r)) s = (inr berr, s1) ->
  let e := Errorf_w "failed to begin transaction: " berr in
  let oe := run d (eh w (handed_error e)) s1 in
  run d (Transactional.Wrap t h eh w r) s =
    mkOutcome (value oe) (final oe)
      (CBegin (Transactional.dbx t) (req_ctx r) (inr berr) :: trace oe) /\
  (errors_As_httperr berr = None -> handed_error e = e).
Proof.
  intros W d t h eh w r s berr s1 Hctx Hb e oe. split.
  - rewrite (Wrap_fresh_outcome W d t h eh w r s Hctx).
    rewrite (WrapFn_not_begun W d t (req_ctx r) _ s berr s1 Hb).
    reflexivity.
  - intros Hnone. unfold handed_error, e, Errorf_w. cbn [errors_As_httperr].
    rewrite Hnone. reflexivity.
Qed.

Lemma Wrap_begin_fails_witness :
  run (sql_driver broken_begin)
      (Transactional.Wrap trans0 find_user_h render 9 req0) sql_init
  = mkOutcome tt sql_init
      [CBegin db0 Background (inr (ErrOther "connection refused"));
       CRender 9 (ErrWrapf "failed to begin transaction: connection refused"
                    (ErrOther "connection refused"))].
Proof.
  apply (@Wrap_begin_fails SqlState (sql_driver broken_begin) trans0
           find_user_h render 9 req0 sql_init (ErrOther "connection refused")
           sql_init); reflexivity.
Defined.

(** ** On a database that keeps the contract of [database/sql] *)

Lemma run_stays_done : forall (W A : Type) (d : Driver W) done,
  TxContract d done ->
  forall (p : Prog A) tx s,
  done tx s = true -> done tx (final (run d p s)) = true.
Proof.
  intros W A d done C p. induction p as [a | X e k IH]; intros tx s Hs.
  - exact Hs.
  - cbn [run]. pose proof (stays_done C e tx s Hs) as Hs1.
    destruct (d X e s) as [x s1]. cbn [final]. apply IH. exact Hs1.
Qed.

Lemma is_finished_finish : forall tx tx' s,
  is_finished tx (finish tx' s) = Nat.eqb tx tx' || is_finished tx s.
Proof. reflexivity. Qed.

(** The reference driver keeps the contract, whatever the database answers. *)
Lemma sql_driver_contract : forall f, TxContract (sql_driver f) is_finished.
Proof.
  intros f. constructor.
  - intros tx s H. exists ErrTxDone. cbn. rewrite H. split; reflexivity.
  - intros tx s H. exists ErrTxDone. cbn. rewrite H. split; reflexivity.
  - intros tx s. cbn. destruct (is_finished tx s) eqn:H; cbn [snd].
    + exact H.
    + rewrite is_finished_finish, Nat.eqb_refl. reflexivity.
  - intros tx s. cbn. destruct (is_finished tx s) eqn:H; cbn [snd].
    + exact H.
    + rewrite is_finished_finish, Nat.eqb_refl. reflexivity.
  - intros X e tx s H. destruct e as [db ctx | tx' | tx' | tx' q | w err]; cbn.
    + destruct (begin_fault f); exact H.
    + destruct (is_finished tx' s); cbn [snd]; [exact H |].
      rewrite is_finished_finish, H. apply orb_true_r.
    + destruct (is_finished tx' s); cbn [snd]; [exact H |].
      rewrite is_finished_finish, H. apply orb_true_r.
    + destruct (is_finished tx' s); exact H.
    + exact H.
Qed.

(** X9.  On such a database, once begin has succeeded the handle is
    finished when an executor returns, on every path: whether the unit of
    work failed or not, and whatever the commit or the rollback answered. *)
Theorem WrapFn_leaves_handle_finished : forall (W : Type) (d : Driver W) done,
  TxContract d done ->
  forall db ctx s tx s1,
  d _ (BeginTxx db ctx) s = (inl tx, s1) ->
  (forall fn,
     done tx (final (run d (Transactional.WrapFn (Transactional.WithDB db) ctx fn) s))
     = true) /\
  (forall (T : Type) (Z0 : Zero T) (fn : Tx -> Prog (T * option error)),
     done tx (final (run d (Typed.WrapFn (Typed.WithDBAndType db) ctx fn) s))
     = true).
Proof.
  intros W d done C db ctx s tx s1 Hb. split.
  - intros fn.
    rewrite (WrapFn_begun W d (Transactional.WithDB db) ctx fn s tx s1 Hb).
    cbn [final]. unfold resolved_state.
    destruct (value (run d (fn tx) s1));
      [apply (rollback_finishes C) | apply (commit_finishes C)].
  - intros T Z0 fn.
    rewrite (typed_WrapFn_outcome W d T Z0 (Typed.WithDBAndType db) ctx fn s tx s1 Hb).
    cbn [final].
    destruct (snd (value (run d (fn tx) s1)));
      [apply (rollback_finishes C) | apply (commit_finishes C)].
Qed.

Lemma WrapFn_leaves_handle_finished_witness :
  is_finished 1 (final (run (sql_driver broken_rollback)
                          (Transactional.WrapFn trans0 Background find_user)
                          sql_init)) = true /\
  is_finished 1 (final (run (sql_driver broken_commit)
                          (Typed.WrapFn typed0 Background find_user_typed)
                          sql_init)) = true.
Proof.
  split.
  - apply (proj1 (@WrapFn_leaves_handle_finished SqlState
                    (sql_driver broken_rollback) is_finished
                    (sql_driver_contract broken_rollback)
                    db0 Background sql_init 1 sql_begun eq_refl) find_user).
  - apply (proj2 (@WrapFn_leaves_handle_finished SqlState
                    (sql_driver broken_commit) is_finished
                    (sql_driver_contract broken_commit)
                    db0 Background sql_init 1 sql_begun eq_refl)
             Z _ find_user_typed).
Defined.

(** X10.  On such a database, in the nested scenario where the handler of
    the inner, reusing [Wrap] fails, the failure is reported once: the inner
    call has finished the handle, so when the outer handler returns nil the
    outer commit fails with "transaction already finished", which counts
    as success, and the outer error handler is not run; and when the outer
    handler returns an error, the outer rollback fails the same way and the
    function of the outer [Wrap] returns that very error, unchanged. *)
Theorem nested_failure_reported_once : forall (W : Type) (d : Driver W) done,
  TxContract d done ->
  forall (t : Transactional.Transactional) (h : Handler)
    (eh eh_outer : ErrorHandler) w r s tx s1 err,
  Value_txKey (req_ctx r) = None ->
  d _ (BeginTxx (Transactional.dbx t) (req_ctx r)) s = (inl tx, s1) ->
  let r' := WithContext r (WithValue_txKey (req_ctx r) tx) in
  value (run d (h tx w r') s1) = Some err ->
  let inner := run d (Transactional.Wrap t h eh w r') s1 in
  (exists cerr,
     errors_Is cerr ErrTxDone = true /\
     trace (run d (Transactional.Wrap t (nested_outer t h eh None) eh_outer w r) s) =
       CBegin (Transactional.dbx t) (req_ctx r) (inl tx) :: trace inner ++
       [CCommit tx (Some cerr)]) /\
  (forall propagated, exists rerr,
     errors_Is rerr ErrTxDone = true /\
     let outer := run d (Transactional.Wrap_func t
                           (nested_outer t h eh (Some propagated)) w r) s in
     value outer = Some propagated /\
     trace outer =
       CBegin (Transactional.dbx t) (req_ctx r) (inl tx) :: trace inner ++
       [CRollback tx (Some rerr)]).
Proof.
  intros W d done C t h eh eh_outer w r s tx s1 err Hctx Hb r' Hh inner.
  assert (Hdone : done tx (final inner) = true).
  { unfold inner.
    rewrite (Wrap_reuse_outcome W d t h eh w r' tx s1 eq_refl), Hh.
    cbn [final]. apply (run_stays_done W _ d done C). apply (rollback_finishes C). }
  split.
  - destruct (commit_done C tx (final inner) Hdone) as [cerr [Hc Hdc]].
    exists cerr. split; [exact Hdc |].
    rewrite (Wrap_fresh W d t (nested_outer t h eh None) eh_outer w r s tx s1 Hctx Hb).
    fold r'. unfold nested_outer. cbn [chain_handler].
    rewrite run_bind. cbn [value final trace run]. fold inner.
    unfold closing_call, resolve, resolved_state. cbn [value final trace].
    rewrite Hc, Hdc. cbn [run trace]. rewrite app_nil_r. reflexivity.
  - intros propagated.
    destruct (rollback_done C tx (final inner) Hdone) as [rerr [Hr Hdr]].
    exists rerr. split; [exact Hdr |].
    unfold Transactional.Wrap_func. rewrite Hctx.
    rewrite (WrapFn_begun W d t (req_ctx r) _ s tx s1 Hb).
    fold r'. unfold nested_outer. cbn [chain_handler].
    rewrite run_bind. cbn [value final trace run]. fold inner.
    unfold closing_call, resolve, resolved_state. cbn [value final trace].
    rewrite rollback_value, Hr, Hdr, app_nil_r. split; reflexivity.
Qed.

Lemma nested_failure_reported_once_witness :
  let d := sql_driver broken_rollback in
  let inner := run d (Transactional.Wrap trans0 find_user_h render 9
                        (WithContext req0 (WithValue_txKey Background 1)))
                 sql_begun in
  (exists cerr,
     errors_Is cerr ErrTxDone = true /\
     trace (run d (Transactional.Wrap trans0
                     (nested_outer trans0 find_user_h render None)
                     render 9 req0) sql_init) =
       CBegin db0 Background (inl 1) :: trace inner ++ [CCommit 1 (Some cerr)]) /\
  (forall propagated, exists rerr,
     errors_Is rerr ErrTxDone = true /\
     let outer := run d (Transactional.Wrap_func trans0
                           (nested_outer trans0 find_user_h render (Some propagated))
                           9 req0) sql_init in
     value outer = Some propagated /\
     trace outer =
       CBegin db0 Background (inl 1) :: trace inner ++ [CRollback 1 (Some rerr)]).
Proof.
  apply (@nested_failure_reported_once SqlState (sql_driver broken_rollback)
           is_finished (sql_driver_contract broken_rollback) trans0
           find_user_h render render 9 req0 sql_init 1 sql_begun ErrNoRows);
    reflexivity.
Defined.

(** ** Other errors through the http wrapper *)

(** X11.  On a request that carries no handle, when the handler fails with
    an error that is not equivalent to "no matching row" and the rollback
    succeeds, the function of [Wrap] issues the begin, the handler's calls
    and one rollback, and returns the handler's error, unchanged, to the
    adapter. *)
Theorem Wrap_fresh_failure_passes_error : forall (W : Type) (d : Driver W)
    (t : Transactional.Transactional) h w r s tx s1 err,
  Value_txKey (req_ctx r) = None ->
  d _ (BeginTxx (Transactional.dbx t) (req_ctx r)) s = (inl tx, s1) ->
  let o := run d (h tx w (WithContext r (WithValue_txKey (req_ctx r) tx))) s1 in
  value o = Some err ->
  errors_Is err ErrNoRows = false ->
  fst (d _ (Rollback tx) (final o)) = None ->
  run d (Transactional.Wrap_func t h w r) s =
    mkOutcome (Some err) (snd (d _ (Rollback tx) (final o)))
      (CBegin (Transactional.dbx t) (req_ctx r) (inl tx) :: trace o ++
       [CRollback tx None]).
Proof.
  intros W d t h w r s tx s1 err Hctx Hb o Ho Hnr Hr.
  unfold Transactional.Wrap_func. rewrite Hctx.
  rewrite (WrapFn_begun W d t (req_ctx r) _ s tx s1 Hb). fold o.
  unfold resolve, resolved_state, closing_call.
  rewrite Ho, rollback_value, Hr, Hnr. reflexivity.
Qed.

Lemma Wrap_fresh_failure_passes_error_witness :
  run (sql_driver no_faults)
      (Transactional.Wrap_func trans0
         (fun _ _ _ => Ret (Some (ErrWrapf "lookup: bad input"
                                    (ErrHTTP (ErrOther "bad input") 400))))
         9 req0) sql_init
  = mkOutcome (Some (ErrWrapf "lookup: bad input"
                       (ErrHTTP (ErrOther "bad input") 400)))
      sql_done
      [CBegin db0 Background (inl 1); CRollback 1 None].
Proof.
  apply (@Wrap_fresh_failure_passes_error SqlState (sql_driver no_faults)
           trans0
           (fun _ _ _ => Ret (Some (ErrWrapf "lookup: bad input"
                                      (ErrHTTP (ErrOther "bad input") 400))))
           9 req0 sql_init 1 sql_begun
           (ErrWrapf "lookup: bad input" (ErrHTTP (ErrOther "bad input") 400)));
    reflexivity.
Defined.

(** ** The result of the typed executor *)

(** X12.  Once begin has succeeded, the result [Typed.WrapFn] returns is the
    one the unit of work returned, on every path: commit, failed commit and
    rollback alike. *)
Theorem typed_WrapFn_result_passes_through : forall (T : Type) (Z0 : Zero T)
    (W : Type) (d : Driver W) (t : Typed.Typed T) ctx fn s tx s1,
  d _ (BeginTxx (Typed.dbx t) ctx) s = (inl tx, s1) ->
  fst (value (run d (Typed.WrapFn t ctx fn) s)) = fst (value (run d (fn tx) s1)).
Proof.
  intros T Z0 W d t ctx fn s tx s1 Hb.
  rewrite (typed_WrapFn_outcome W d T Z0 t ctx fn s tx s1 Hb).
  cbn [value]. unfold typed_resolve.
  destruct (snd (value (run d (fn tx) s1))) as [err|]; [reflexivity |].
  destruct (fst (d _ (Commit tx) (final (run d (fn tx) s1)))) as [cerr|];
    [destruct (errors_Is cerr ErrTxDone)|]; reflexivity.
Qed.

Lemma typed_WrapFn_result_passes_through_witness :
  fst (value (run (sql_driver broken_commit)
                  (Typed.WrapFn typed0 Background find_user_typed) sql_init))
  = 42%Z.
Proof.
  apply (@typed_WrapFn_result_passes_through Z _ SqlState
           (sql_driver broken_commit) typed0 Background find_user_typed
           sql_init 1 sql_begun); reflexivity.
Defined.

(** ** What the adapter hands to the error handler *)

(** A handler fails with an error that wraps an [httperr.Error]: the
    function of [Wrap] returns the handler's error as it is, and the adapter
    runs the error handler on the [httperr.Error] found on its chain. *)
Example Wrap_hands_httperr_found :
  trace (run (sql_driver no_faults)
             (Transactional.Wrap trans0
                (fun _ _ _ => Ret (Some (ErrWrapf "lookup: bad input"
                                           (ErrHTTP (ErrOther "bad input") 400))))
                render 9 req0) sql_init)
  = [CBegin db0 Background (inl 1); CRollback 1 None;
     CRender 9 (ErrHTTP (ErrOther "bad input") 400)].
Proof. reflexivity. Qed.
